(** * BioAge-app: PDF ingestion into a hosted vector store, and its query client

    A shallow embedding of the ingestion scripts ([ingest_pdf_simple.py],
    [ingest_pdf_to_astra_v2.py]) and of the query client ([query_astra.py]).

    Python values are modelled as follows.
    - [str] is [string]; [len], [+], slicing, [str.replace] and [str.strip]
      are written out below.
    - Non-negative integers produced by [enumerate], [len] and [range] are
      [nat]; the one place where the source subtracts below zero
      ([(len(documents) - 1) // batch_size + 1]) is computed in [Z].
    - Console output, calls into the store SDK and [time.sleep] are events of
      a trace; the remote store is an arbitrary state machine answering each
      SDK call with a value or an exception.
    - Exceptions are the error branch of a small state-and-error monad. *)

From Stdlib Require Import List String Ascii Bool Arith ZArith Lia FinFun.
From Stdlib Require Import DecimalString DecimalNat DecimalZ.
Import ListNotations.

Set Warnings "-register-all".

Local Open Scope string_scope.
Local Open Scope list_scope.

(** ** Python strings *)

Module PyStr.

(** [str(n)] for a non-negative integer. *)
Definition str_of_nat (n : nat) : string :=
  NilEmpty.string_of_uint (Nat.to_uint n).

(** [str(z)] for an integer. *)
Definition str_of_Z (z : Z) : string :=
  NilZero.string_of_int (Z.to_int z).

(** [s * n]. *)
Fixpoint repeat_str (s : string) (n : nat) : string :=
  match n with
  | O => ""
  | S k => s ++ repeat_str s k
  end.

(** [s.startswith(p)]. *)
Fixpoint startswith (p s : string) : bool :=
  match p, s with
  | EmptyString, _ => true
  | String _ _, EmptyString => false
  | String a p', String b s' => Ascii.eqb a b && startswith p' s'
  end.

(** Left-to-right scan of [str.replace] for a non-empty pattern whose first
    character has already been split off: [skip] counts the characters of a
    match that are still to be dropped. *)
Fixpoint replace_scan (old new : string) (skip : nat) (s : string) : string :=
  match s with
  | EmptyString => EmptyString
  | String c s' =>
      match skip with
      | S k => replace_scan old new k s'
      | O =>
          if startswith old s
          then new ++ replace_scan old new (String.length old - 1) s'
          else String c (replace_scan old new 0 s')
      end
  end.

(** [new] placed before every character and at the end: what
    [s.replace("", new)] returns. *)
Fixpoint intersperse_all (new s : string) : string :=
  match s with
  | EmptyString => new
  | String c s' => new ++ String c (intersperse_all new s')
  end.

(** [s.replace(old, new)]: every non-overlapping occurrence of [old], found
    from the left, is replaced by [new]. *)
Definition replace (old new s : string) : string :=
  match old with
  | EmptyString => intersperse_all new s
  | String _ _ => replace_scan old new 0 s
  end.

(** [c.isspace()] on the characters below 256. *)
Definition isspace (c : ascii) : bool :=
  let n := nat_of_ascii c in
  (((9 <=? n) && (n <=? 13)) || ((28 <=? n) && (n <=? 32))
   || (n =? 133) || (n =? 160))%nat.

(** [s.lstrip()]. *)
Fixpoint lstrip (s : string) : string :=
  match s with
  | EmptyString => EmptyString
  | String c s' => if isspace c then lstrip s' else s
  end.

(** [s.rstrip()]. *)
Fixpoint rstrip (s : string) : string :=
  match s with
  | EmptyString => EmptyString
  | String c s' =>
      match rstrip s' with
      | EmptyString => if isspace c then EmptyString else String c EmptyString
      | r => String c r
      end
  end.

(** [s.strip()]. *)
Definition strip (s : string) : string := rstrip (lstrip s).

(** Truth value of a string: [bool(s)]. *)
Definition truthy (s : string) : bool :=
  match s with
  | EmptyString => false
  | String _ _ => true
  end.

(** [s[:n]]. *)
Definition take (n : nat) (s : string) : string := String.substring 0 n s.

(** Every character of [s] satisfies [p]. *)
Fixpoint all_chars (p : ascii -> bool) (s : string) : bool :=
  match s with
  | EmptyString => true
  | String c s' => p c && all_chars p s'
  end.

End PyStr.

(** ** Python lists: [enumerate], [range] with a step, slices *)

Module PyList.

(** [enumerate(xs)] counting from [start]. *)
Fixpoint enumerate_from {A : Type} (start : nat) (xs : list A) : list (nat * A) :=
  match xs with
  | [] => []
  | x :: r => (start, x) :: enumerate_from (S start) r
  end.

Definition enumerate {A : Type} (xs : list A) : list (nat * A) :=
  enumerate_from 0 xs.

(** [range(0, stop, step)] for a positive [step]: its length is
    [ceil(stop / step)] and its [k]-th element is [k * step]. *)
Definition range_step (stop step : nat) : list nat :=
  map (fun k => k * step) (seq 0 ((stop + step - 1) / step)).

(** [xs[i:j]]. *)
Definition slice {A : Type} (i j : nat) (xs : list A) : list A :=
  firstn (j - i) (skipn i xs).

(** The slices [xs[k*b : k*b + b]] for [k < m]: what a loop over
    [range(0, m*b, b)] that takes [xs[i:i+b]] goes through. *)
Definition slices {A : Type} (b m : nat) (xs : list A) : list (list A) :=
  map (fun i => slice i (i + b) xs) (map (fun k => k * b) (seq 0 m)).

End PyList.

(** ** Values, the store SDK and the effect monad *)

Module Runtime.

Section WithFloat.

(** The carrier of Python's [float]; its arithmetic is not used. *)
Context {Float : Type}.

(** JSON-like values held by the dictionaries sent to and received from the
    store.  A [dict] is an association list in insertion order. *)
Inductive Value : Type :=
| VStr (s : string)
| VInt (z : Z)
| VFloat (f : Float)
| VList (l : list Value)
| VDict (d : list (string * Value)).

Definition Doc : Type := list (string * Value).

(** [d.get(key)]: [None] when the key is absent. *)
Fixpoint get (key : string) (d : Doc) : option Value :=
  match d with
  | [] => None
  | (k, v) :: r => if String.eqb k key then Some v else get key r
  end.

(** [d.get(key, default)]. *)
Definition get_default (key : string) (default : Value) (d : Doc) : Value :=
  match get key d with
  | Some v => v
  | None => default
  end.

(** [key in d]. *)
Definition contains (key : string) (d : Doc) : bool :=
  match get key d with
  | Some _ => true
  | None => false
  end.

Inductive Exception : Type :=
| ValueError (msg : string)
| TypeError (msg : string)
| AttributeError (msg : string)
| FileNotFoundError (msg : string)
| OverflowError (msg : string)
| StoreError (msg : string).

(** [str(e)]. *)
Definition str_of_exception (e : Exception) : string :=
  match e with
  | ValueError m | TypeError m | AttributeError m
  | FileNotFoundError m | OverflowError m | StoreError m => m
  end.

(** Calls into the store SDK, named as in the sources. *)
Inductive Call : Type :=
| DataAPIClient (token : option string)
| get_database (endpoint : option string)
| get_database_by_api_endpoint (endpoint : option string)
| create_collection (name : string)
| get_collection (name : string)
| insert_many (batch : list Doc)
| find (query : string) (limit : Z)
| list_collection_names.

(** What a run leaves behind, in the order it happened. *)
Inductive Event : Type :=
| Print (line : string)
| Sdk (c : Call)
| Sleep (milliseconds : nat)
| PrintTraceback (e : Exception).

(** The remote store as seen by one run: each SDK call either returns or
    raises, depending on the call and on all the calls made before it.
    [found] and [names] are what [find] and [list_collection_names] return
    when they do not raise. *)
Record Remote : Type := {
  outcome : list Call -> Call -> option Exception;
  found : list Call -> string -> Z -> list Doc;
  names : list Call -> list string
}.

Definition Trace : Type := list Event.

(** The SDK calls of a trace, oldest first. *)
Fixpoint calls_of (t : Trace) : list Call :=
  match t with
  | [] => []
  | Sdk c :: r => c :: calls_of r
  | _ :: r => calls_of r
  end.

(** The printed lines of a trace, oldest first. *)
Fixpoint printed (t : Trace) : list string :=
  match t with
  | [] => []
  | Print l :: r => l :: printed r
  | _ :: r => printed r
  end.

(** The batches handed to [insert_many], oldest first. *)
Fixpoint submitted (t : Trace) : list (list Doc) :=
  match t with
  | [] => []
  | Sdk (insert_many b) :: r => b :: submitted r
  | _ :: r => submitted r
  end.

Inductive Result (A : Type) : Type :=
| Ok (a : A)
| Raise (e : Exception).

Arguments Ok {A} a.
Arguments Raise {A} e.

(** A computation reads the remote store, extends the trace of the run so
    far and returns or raises. *)
Definition M (A : Type) : Type := Remote -> Trace -> Result A * Trace.

Definition ret {A : Type} (a : A) : M A := fun _ t => (Ok a, t).

Definition bind {A B : Type} (m : M A) (k : A -> M B) : M B :=
  fun r t =>
    match m r t with
    | (Ok a, t') => k a r t'
    | (Raise e, t') => (Raise e, t')
    end.

Definition raise {A : Type} (e : Exception) : M A := fun _ t => (Raise e, t).

(** [try: m  except Exception as e: h e]. *)
Definition try_except {A : Type} (m : M A) (h : Exception -> M A) : M A :=
  fun r t =>
    match m r t with
    | (Ok a, t') => (Ok a, t')
    | (Raise e, t') => h e r t'
    end.

Definition emit (e : Event) : M unit := fun _ t => (Ok tt, t ++ [e]).

Definition print (line : string) : M unit := emit (Print line).

Definition sleep (milliseconds : nat) : M unit := emit (Sleep milliseconds).

(** An SDK call: recorded, then answered by the remote store. *)
Definition sdk (c : Call) : M unit :=
  fun r t =>
    match outcome r (calls_of t) c with
    | None => (Ok tt, t ++ [Sdk c])
    | Some e => (Raise e, t ++ [Sdk c])
    end.

(** [collection.find(...)], returning the documents found. *)
Definition sdk_find (query : string) (limit : Z) : M (list Doc) :=
  fun r t =>
    match sdk (find query limit) r t with
    | (Ok _, t') => (Ok (found r (calls_of t) query limit), t')
    | (Raise e, t') => (Raise e, t')
    end.

(** [database.list_collection_names()]. *)
Definition sdk_list_collection_names : M (list string) :=
  fun r t =>
    match sdk list_collection_names r t with
    | (Ok _, t') => (Ok (names r (calls_of t)), t')
    | (Raise e, t') => (Raise e, t')
    end.

(** [for x in xs: body x]. *)
Fixpoint for_each {A : Type} (xs : list A) (body : A -> M unit) : M unit :=
  match xs with
  | [] => ret tt
  | x :: rest => bind (body x) (fun _ => for_each rest body)
  end.

(** Python's [not x] for a value that is [None] or a string. *)
Definition not_ (x : option string) : bool :=
  match x with
  | None => true
  | Some s => negb (PyStr.truthy s)
  end.

(** The process environment read at import time. *)
Record Env : Type := {
  ASTRA_DB_API_ENDPOINT : option string;
  ASTRA_DB_APPLICATION_TOKEN : option string
}.

End WithFloat.

Arguments Value : clear implicits.
Arguments Doc : clear implicits.
Arguments Call : clear implicits.
Arguments Event : clear implicits.
Arguments Remote : clear implicits.
Arguments Trace : clear implicits.
Arguments M : clear implicits.
Arguments Ok {A} a.
Arguments Raise {A} e.

Declare Scope py_scope.
Delimit Scope py_scope with py.
Notation "x <- m ;; k" := (bind m (fun x => k))
  (at level 61, m at next level, right associativity) : py_scope.
Notation "m ;; k" := (bind m (fun _ => k))
  (at level 61, right associativity) : py_scope.

End Runtime.

(** ** The collaborators the scripts import *)

Module Collaborators.

(** The arguments with which the scripts build langchain's
    [RecursiveCharacterTextSplitter]; [length_function] is always [len]. *)
Record RecursiveCharacterTextSplitter : Type := {
  chunk_size : Z;
  chunk_overlap : Z;
  separators : list string
}.

(** What [PdfReader] finds at a path. *)
Inductive File : Type :=
| Pages (pages : list string)
| Unreadable (e : Runtime.Exception).

Definition FileSystem : Type := string -> option File.

(** [os.path.basename] on POSIX paths. *)
Fixpoint basename_from (acc path : string) : string :=
  match path with
  | EmptyString => acc
  | String c rest =>
      if Ascii.eqb c "/"%char then basename_from "" rest
      else basename_from (acc ++ String c "") rest
  end.

Definition basename (path : string) : string := basename_from "" path.

End Collaborators.

(** ** ingest_pdf_simple.py: ingestion with server-side vectorization *)

Module IngestSimple.

Import Runtime Collaborators.
Local Open Scope py_scope.

Definition nl : string := String "010"%char "".

Section Script.

Context {Float : Type}.

(** [split_text] of langchain's splitter, a function of the splitter's
    configuration and of the text; it returns the chunks or raises. *)
Variable split_text :
  RecursiveCharacterTextSplitter -> string -> Result (list string).

Variable fs : FileSystem.

Variable env : Env.

Local Abbreviation M := (Runtime.M Float).
Local Abbreviation Doc := (Runtime.Doc Float).

(** The loop of [extract_text_from_pdf] over [enumerate(reader.pages, 1)]. *)
Fixpoint extract_pages (total : nat) (pages : list (nat * string))
    (text : string) : M string :=
  match pages with
  | [] => ret text
  | (page_num, page_text) :: rest =>
      print ("   Processed page " ++ PyStr.str_of_nat page_num ++ "/"
             ++ PyStr.str_of_nat total) ;;
      extract_pages total rest (text ++ (page_text ++ nl ++ nl))
  end.

Definition extract_text_from_pdf (pdf_path : string) : M string :=
  print ("[*] Reading PDF: " ++ pdf_path) ;;
  match fs pdf_path with
  | None => raise (FileNotFoundError pdf_path)
  | Some (Unreadable e) => raise e
  | Some (Pages pages) =>
      text <- extract_pages (List.length pages) (PyList.enumerate_from 1 pages) "" ;;
      print ("[+] Extracted " ++ PyStr.str_of_nat (String.length text)
             ++ " characters from " ++ PyStr.str_of_nat (List.length pages)
             ++ " pages") ;;
      ret text
  end.

Definition chunk_text (text : string) (chunk_size chunk_overlap : Z)
    : M (list string) :=
  print (nl ++ "[*] Chunking text (size=" ++ PyStr.str_of_Z chunk_size
         ++ ", overlap=" ++ PyStr.str_of_Z chunk_overlap ++ ")") ;;
  let text_splitter :=
    {| Collaborators.chunk_size := chunk_size;
       Collaborators.chunk_overlap := chunk_overlap;
       separators := [(nl ++ nl)%string; nl; " "; ""] |} in
  match split_text text_splitter text with
  | Raise e => raise e
  | Ok chunks =>
      print ("[+] Created " ++ PyStr.str_of_nat (List.length chunks) ++ " chunks") ;;
      ret chunks
  end.

(** The [_id] of the document built for chunk [i]:
    [f"{pdf_filename.replace('.pdf', '')}_{i}"]. *)
Definition record_id (pdf_filename : string) (i : nat) : string :=
  PyStr.replace ".pdf" "" pdf_filename ++ "_" ++ PyStr.str_of_nat i.

(** The dictionary built for chunk [i] out of [total] chunks. *)
Definition make_doc (pdf_filename : string) (total : nat) (i : nat)
    (chunk : string) : Doc :=
  [ ("_id", VStr (record_id pdf_filename i));
    ("source", VStr pdf_filename);
    ("chunk_id", VInt (Z.of_nat i));
    ("total_chunks", VInt (Z.of_nat total));
    ("$vectorize", VStr chunk) ].

(** The loop [for i, chunk in enumerate(chunks): documents.append(doc)]. *)
Definition prepare_documents (chunks : list string) (pdf_filename : string)
    : list Doc :=
  map (fun ic => make_doc pdf_filename (List.length chunks) (fst ic) (snd ic))
      (PyList.enumerate chunks).

Definition batch_size : nat := 20.

(** [(len(documents) - 1) // batch_size + 1], with Python's floor division. *)
Definition total_batches (documents : list Doc) : Z :=
  ((Z.of_nat (List.length documents) - 1) / Z.of_nat batch_size + 1)%Z.

(** The batches of the insertion loop, in the order the loop forms them:
    [documents[i:i+batch_size]] for [i] in
    [range(0, len(documents), batch_size)]. *)
Definition batches (documents : list Doc) : list (list Doc) :=
  map (fun i => PyList.slice i (i + batch_size) documents)
      (PyList.range_step (List.length documents) batch_size).

(** One iteration of the insertion loop: the [try] around [insert_many]
    catches the failure, reports it and goes on to the [sleep]. *)
Definition insert_batch (documents : list Doc) (i : nat) : M unit :=
  let batch := PyList.slice i (i + batch_size) documents in
  try_except
    (sdk (insert_many batch) ;;
     print ("   Inserted batch " ++ PyStr.str_of_nat (i / batch_size + 1)
            ++ "/" ++ PyStr.str_of_Z (total_batches documents)
            ++ " (" ++ PyStr.str_of_nat (List.length batch) ++ " documents)"))
    (fun e =>
       print ("   Error inserting batch "
              ++ PyStr.str_of_nat (i / batch_size + 1) ++ ": "
              ++ str_of_exception e)) ;;
  sleep 500.

Definition insert_documents (documents : list Doc) : M unit :=
  for_each (PyList.range_step (List.length documents) batch_size)
           (insert_batch documents).

Definition ingest_to_astra (chunks : list string) (collection_name : string)
    (pdf_filename : string) : M unit :=
  print (nl ++ "[*] Ingesting to Astra DB collection: '" ++ collection_name
         ++ "'") ;;
  if not_ (ASTRA_DB_API_ENDPOINT env) || not_ (ASTRA_DB_APPLICATION_TOKEN env)
  then raise (ValueError "Missing Astra DB credentials. Check your .env file.")
  else
    print "   Connecting to Astra DB..." ;;
    sdk (DataAPIClient (ASTRA_DB_APPLICATION_TOKEN env)) ;;
    sdk (get_database (ASTRA_DB_API_ENDPOINT env)) ;;
    print ("   Getting collection '" ++ collection_name ++ "'...") ;;
    sdk (get_collection collection_name) ;;
    print "   Collection retrieved successfully!" ;;
    print ("   Preparing " ++ PyStr.str_of_nat (List.length chunks)
           ++ " documents...") ;;
    let documents := prepare_documents chunks pdf_filename in
    print "   Inserting documents into Astra DB..." ;;
    insert_documents documents ;;
    print "[+] Successfully ingested chunks to Astra DB!" ;;
    print ("   Collection: " ++ collection_name) ;;
    print ("   Source: " ++ pdf_filename) ;;
    ret tt.

(** The parsed command line. *)
Record Args : Type := {
  pdf_path : string;
  collection : string;
  arg_chunk_size : Z;
  arg_chunk_overlap : Z
}.

Definition rule : string := PyStr.repeat_str "=" 60.

Definition no_text_message : string :=
  "[-] Error: No text extracted from PDF. The PDF might be image-based.".

(** The body of the [try] block of [main]. *)
Definition main_steps (args : Args) (pdf_filename : string) : M unit :=
  text <- extract_text_from_pdf (pdf_path args) ;;
  if negb (PyStr.truthy (PyStr.strip text))
  then print no_text_message
  else
    chunks <- chunk_text text (arg_chunk_size args) (arg_chunk_overlap args) ;;
    ingest_to_astra chunks (collection args) pdf_filename ;;
    print (nl ++ rule) ;;
    print "[+] INGESTION COMPLETE!" ;;
    print rule.

Definition main (args : Args) : M unit :=
  match fs (pdf_path args) with
  | None => print ("[-] Error: PDF file not found: " ++ pdf_path args)
  | Some _ =>
      let pdf_filename := basename (pdf_path args) in
      print rule ;;
      print "PDF TO ASTRA VECTOR DATABASE INGESTION" ;;
      print "Using Astra DB Built-in Vectorization" ;;
      print rule ;;
      print ("PDF File: " ++ pdf_filename) ;;
      print ("Collection: " ++ collection args) ;;
      print ("Chunk Size: " ++ PyStr.str_of_Z (arg_chunk_size args)) ;;
      print ("Chunk Overlap: " ++ PyStr.str_of_Z (arg_chunk_overlap args)) ;;
      print rule ;;
      print "" ;;
      try_except (main_steps args pdf_filename)
        (fun e =>
           print (nl ++ "[-] Error during ingestion: " ++ str_of_exception e) ;;
           emit (PrintTraceback e))
  end.

End Script.

End IngestSimple.

(** ** ingest_pdf_to_astra_v2.py: ingestion with locally computed embeddings

    [extract_text_from_pdf], [chunk_text] and [main] of this script are those
    of [IngestSimple] (up to one banner line); only [ingest_to_astra]
    differs. *)

Module IngestV2.

Import Runtime Collaborators.
Local Open Scope py_scope.

Definition nl : string := IngestSimple.nl.

Section Script.

Context {Float : Type}.

(** [HuggingFaceEmbeddings.embed_query], computed in this process. *)
Variable embed_query : string -> list Float.

Variable env : Env.

Local Abbreviation M := (Runtime.M Float).
Local Abbreviation Doc := (Runtime.Doc Float).

(** The [_id] of the document built for chunk [i]:
    [f"{pdf_filename}_chunk_{i}"]. *)
Definition record_id (pdf_filename : string) (i : nat) : string :=
  pdf_filename ++ "_chunk_" ++ PyStr.str_of_nat i.

Definition make_doc (pdf_filename : string) (total : nat) (i : nat)
    (chunk : string) : Doc :=
  [ ("_id", VStr (record_id pdf_filename i));
    ("text", VStr chunk);
    ("$vector", VList (map VFloat (embed_query chunk)));
    ("metadata", VDict [ ("source", VStr pdf_filename);
                         ("chunk_id", VInt (Z.of_nat i));
                         ("total_chunks", VInt (Z.of_nat total)) ]) ].

(** The loop over [enumerate(chunks)], with its progress line every tenth
    chunk; [documents] accumulates the dictionaries. *)
Fixpoint prepare_documents (pdf_filename : string) (total : nat)
    (ichunks : list (nat * string)) (documents : list Doc) : M (list Doc) :=
  match ichunks with
  | [] => ret documents
  | (i, chunk) :: rest =>
      (if (i mod 10 =? 0)%nat
       then print ("   Processing chunk " ++ PyStr.str_of_nat (i + 1) ++ "/"
                   ++ PyStr.str_of_nat total ++ "...")
       else ret tt) ;;
      prepare_documents pdf_filename total rest
        (documents ++ [make_doc pdf_filename total i chunk])
  end.

Definition batch_size : nat := 20.

(** One iteration of the insertion loop: [insert_many] is not guarded, so
    an exception leaves the loop and the function. *)
Definition insert_batch (documents : list Doc) (i : nat) : M unit :=
  let batch := PyList.slice i (i + batch_size) documents in
  sdk (insert_many batch) ;;
  print ("   Inserted batch " ++ PyStr.str_of_nat (i / batch_size + 1) ++ "/"
         ++ PyStr.str_of_Z ((Z.of_nat (List.length documents) - 1)
                            / Z.of_nat batch_size + 1)) ;;
  sleep 100.

Definition insert_documents (documents : list Doc) : M unit :=
  for_each (PyList.range_step (List.length documents) batch_size)
           (insert_batch documents).

Definition ingest_to_astra (chunks : list string) (collection_name : string)
    (pdf_filename : string) : M unit :=
  print (nl ++ "[*] Ingesting to Astra DB collection: '" ++ collection_name
         ++ "'") ;;
  if not_ (ASTRA_DB_API_ENDPOINT env) || not_ (ASTRA_DB_APPLICATION_TOKEN env)
  then raise (ValueError "Missing Astra DB credentials. Check your .env file.")
  else
    print "   Loading HuggingFace embeddings model..." ;;
    print "   Embeddings model loaded successfully!" ;;
    print "   Testing embeddings..." ;;
    let sample_embedding := embed_query "test" in
    let embedding_dim := List.length sample_embedding in
    print ("   Embedding dimension: " ++ PyStr.str_of_nat embedding_dim) ;;
    print "   Connecting to Astra DB..." ;;
    sdk (DataAPIClient (ASTRA_DB_APPLICATION_TOKEN env)) ;;
    sdk (get_database (ASTRA_DB_API_ENDPOINT env)) ;;
    print ("   Creating/getting collection '" ++ collection_name ++ "'...") ;;
    try_except
      (sdk (create_collection collection_name) ;;
       print "   Collection created successfully!")
      (fun _ =>
         print "   Collection may already exist, attempting to get it..." ;;
         sdk (get_collection collection_name) ;;
         print "   Using existing collection!") ;;
    print ("   Preparing " ++ PyStr.str_of_nat (List.length chunks)
           ++ " documents...") ;;
    documents <- prepare_documents pdf_filename (List.length chunks)
                   (PyList.enumerate chunks) [] ;;
    print "   Inserting documents into Astra DB..." ;;
    insert_documents documents ;;
    print ("[+] Successfully ingested "
           ++ PyStr.str_of_nat (List.length documents)
           ++ " chunks to Astra DB!") ;;
    print ("   Collection: " ++ collection_name) ;;
    print ("   Source: " ++ pdf_filename) ;;
    ret tt.

(** The rest of the script.  [extract_text_from_pdf] and [chunk_text] are,
    line for line, those of [IngestSimple]; [main] differs from it in one
    banner line and in the [ingest_to_astra] it calls. *)
Variable split_text :
  RecursiveCharacterTextSplitter -> string -> Result (list string).

Variable fs : FileSystem.

Definition extract_text_from_pdf (pdf_path : string) : M string :=
  IngestSimple.extract_text_from_pdf fs pdf_path.

Definition chunk_text (text : string) (chunk_size chunk_overlap : Z)
    : M (list string) :=
  IngestSimple.chunk_text split_text text chunk_size chunk_overlap.

(** The body of the [try] block of [main]. *)
Definition main_steps (args : IngestSimple.Args) (pdf_filename : string)
    : M unit :=
  text <- extract_text_from_pdf (IngestSimple.pdf_path args) ;;
  if negb (PyStr.truthy (PyStr.strip text))
  then print IngestSimple.no_text_message
  else
    chunks <- chunk_text text (IngestSimple.arg_chunk_size args)
                (IngestSimple.arg_chunk_overlap args) ;;
    ingest_to_astra chunks (IngestSimple.collection args) pdf_filename ;;
    print (nl ++ IngestSimple.rule) ;;
    print "[+] INGESTION COMPLETE!" ;;
    print IngestSimple.rule.

Definition main (args : IngestSimple.Args) : M unit :=
  match fs (IngestSimple.pdf_path args) with
  | None =>
      print ("[-] Error: PDF file not found: " ++ IngestSimple.pdf_path args)
  | Some _ =>
      let pdf_filename := basename (IngestSimple.pdf_path args) in
      print IngestSimple.rule ;;
      print "PDF TO ASTRA VECTOR DATABASE INGESTION" ;;
      print "Using HuggingFace Embeddings (FREE)" ;;
      print IngestSimple.rule ;;
      print ("PDF File: " ++ pdf_filename) ;;
      print ("Collection: " ++ IngestSimple.collection args) ;;
      print ("Chunk Size: "
             ++ PyStr.str_of_Z (IngestSimple.arg_chunk_size args)) ;;
      print ("Chunk Overlap: "
             ++ PyStr.str_of_Z (IngestSimple.arg_chunk_overlap args)) ;;
      print IngestSimple.rule ;;
      print "" ;;
      try_except (main_steps args pdf_filename)
        (fun e =>
           print (nl ++ "[-] Error during ingestion: " ++ str_of_exception e) ;;
           emit (PrintTraceback e))
  end.

End Script.

End IngestV2.

(** ** query_astra.py: the query client *)

Module QueryAstra.

Import Runtime Collaborators.
Local Open Scope py_scope.

Definition nl : string := IngestSimple.nl.

Section Script.

Context {Float : Type}.

(** [str] of a float, list or dictionary, and the [.4f] rendering of a
    float: console formatting. *)
Variable repr_other : Value Float -> string.
Variable fixed4 : Float -> string.

(** [float(z)] for an integer: the float nearest to [z], or nothing when
    [z] is beyond the range of floats and the conversion raises
    [OverflowError]. *)
Variable float_of_int : Z -> option Float.

Variable env : Env.

Local Abbreviation M := (Runtime.M Float).
Local Abbreviation Doc := (Runtime.Doc Float).
Local Abbreviation Value := (Runtime.Value Float).

Definition lift {A : Type} (r : Result A) : M A :=
  match r with
  | Ok a => ret a
  | Raise e => raise e
  end.

(** [f"{v}"]. *)
Definition format_value (v : Value) : string :=
  match v with
  | VStr s => s
  | VInt z => PyStr.str_of_Z z
  | _ => repr_other v
  end.

(** [f"{v:.4f}"]: an integer is converted to a float first. *)
Definition format_4f (v : Value) : Result string :=
  match v with
  | VFloat f => Ok (fixed4 f)
  | VInt z =>
      match float_of_int z with
      | Some f => Ok (fixed4 f)
      | None => Raise (OverflowError "int too large to convert to float")
      end
  | VStr _ => Raise (ValueError "Unknown format code 'f' for object of type 'str'")
  | _ => Raise (TypeError "unsupported format string")
  end.

(** [len(v)]. *)
Definition len (v : Value) : Result nat :=
  match v with
  | VStr s => Ok (String.length s)
  | VList l => Ok (List.length l)
  | VDict d => Ok (List.length d)
  | _ => Raise (TypeError "object has no len()")
  end.

(** [v[:500]]. *)
Definition first_500 (v : Value) : Result Value :=
  match v with
  | VStr s => Ok (VStr (PyStr.take 500 s))
  | VList l => Ok (VList (firstn 500 l))
  | _ => Raise (TypeError "unhashable type: 'slice'")
  end.

(** The characters an [encode('ascii', 'ignore')] keeps. *)
Fixpoint ascii_only (s : string) : string :=
  match s with
  | EmptyString => EmptyString
  | String c r =>
      if (nat_of_ascii c <? 128)%nat then String c (ascii_only r)
      else ascii_only r
  end.

(** [v.encode('ascii', 'ignore').decode('ascii')]. *)
Definition encode_decode_ascii (v : Value) : Result string :=
  match v with
  | VStr s => Ok (ascii_only s)
  | _ => Raise (AttributeError "object has no attribute 'encode'")
  end.

(** [v.encode('utf-8', 'ignore').decode('utf-8', 'ignore')]. *)
Definition encode_decode_utf8 (v : Value) : Result string :=
  match v with
  | VStr s => Ok s
  | _ => Raise (AttributeError "object has no attribute 'encode'")
  end.

Definition rule80 : string := PyStr.repeat_str "=" 80.
Definition dash80 : string := PyStr.repeat_str "-" 80.

(** The body of the loop over [enumerate(results, 1)]. *)
Definition show_result (i : nat) (doc : Doc) : M unit :=
  print (nl ++ "[Result " ++ PyStr.str_of_nat i ++ "]") ;;
  print ("Document ID: " ++ format_value (get_default "_id" (VStr "N/A") doc)) ;;
  print ("Source: " ++ format_value (get_default "source" (VStr "N/A") doc)) ;;
  print ("Chunk: " ++ format_value (get_default "chunk_id" (VStr "N/A") doc)
         ++ " of "
         ++ format_value (get_default "total_chunks" (VStr "N/A") doc)) ;;
  match get "$similarity" doc with
  | Some similarity_score =>
      s <- lift (format_4f similarity_score) ;;
      print ("Similarity Score: " ++ s)
  | None => ret tt
  end ;;
  let vectorized_text := get_default "$vectorize" (VStr "No text content") doc in
  print (nl ++ "Content Preview:") ;;
  print dash80 ;;
  n <- lift (len vectorized_text) ;;
  preview <- (if (500 <? n)%nat then lift (first_500 vectorized_text)
              else ret vectorized_text) ;;
  try_except
    (s <- lift (encode_decode_ascii preview) ;; print s)
    (fun _ => s <- lift (encode_decode_utf8 preview) ;; print s) ;;
  (if (500 <? n)%nat
   then m <- lift (len preview) ;;
        print (nl ++ "... (showing " ++ PyStr.str_of_nat m ++ " of "
               ++ PyStr.str_of_nat n ++ " characters)")
   else ret tt) ;;
  print dash80.

(** The loop itself; it returns the last value of [result_count]. *)
Fixpoint show_results (results : list (nat * Doc)) (result_count : nat)
    : M nat :=
  match results with
  | [] => ret result_count
  | (i, doc) :: rest => show_result i doc ;; show_results rest i
  end.

Definition no_results_message : string :=
  nl ++ "[!] No results found. The collection might be empty or the query didn't match any documents.".

Definition missing_credentials : Exception :=
  ValueError "Missing Astra DB credentials. Check your .env file.".

Definition query_astra (query_text : string) (collection_name : string)
    (limit : Z) : M unit :=
  if not_ (ASTRA_DB_API_ENDPOINT env) || not_ (ASTRA_DB_APPLICATION_TOKEN env)
  then raise missing_credentials
  else
    print (nl ++ "[*] Connecting to Astra DB...") ;;
    sdk (DataAPIClient (ASTRA_DB_APPLICATION_TOKEN env)) ;;
    sdk (get_database_by_api_endpoint (ASTRA_DB_API_ENDPOINT env)) ;;
    print ("[*] Accessing collection '" ++ collection_name ++ "'...") ;;
    sdk (get_collection collection_name) ;;
    print ("[*] Searching for: '" ++ query_text ++ "'") ;;
    print ("[*] Retrieving top " ++ PyStr.str_of_Z limit ++ " results..." ++ nl) ;;
    results <- sdk_find query_text limit ;;
    print rule80 ;;
    print "SEARCH RESULTS" ;;
    print rule80 ;;
    result_count <- show_results (PyList.enumerate_from 1 results) 0 ;;
    (if (result_count =? 0)%nat
     then print no_results_message
     else print (nl ++ "[+] Found " ++ PyStr.str_of_nat result_count
                 ++ " result(s)")) ;;
    print rule80.

(** The loop of [list_collections] over [enumerate(collections, 1)]. *)
Definition show_collections (collections : list string) : M unit :=
  for_each (PyList.enumerate_from 1 collections)
    (fun ic => print (PyStr.str_of_nat (fst ic) ++ ". " ++ snd ic)).

Definition list_collections : M unit :=
  print (nl ++ "[*] Connecting to Astra DB...") ;;
  sdk (DataAPIClient (ASTRA_DB_APPLICATION_TOKEN env)) ;;
  sdk (get_database_by_api_endpoint (ASTRA_DB_API_ENDPOINT env)) ;;
  print "[*] Fetching collections..." ;;
  collections <- sdk_list_collection_names ;;
  print (nl ++ PyStr.repeat_str "=" 60) ;;
  print "AVAILABLE COLLECTIONS" ;;
  print (PyStr.repeat_str "=" 60) ;;
  show_collections collections ;;
  print (PyStr.repeat_str "=" 60) ;;
  print (nl ++ "Total collections: "
         ++ PyStr.str_of_nat (List.length collections)).

(** The parsed command line. *)
Record Args : Type := {
  query : option string;
  collection : string;
  limit : Z;
  arg_list_collections : bool
}.

(** [main] from the line after [parse_args] on, for the argument record
    the parser returned; a command line the parser refuses ends [main]
    before that line and is not modelled.  The last branch also prints the
    parser's help text, which is not modelled. *)
Definition main (args : Args) : M unit :=
  print rule80 ;;
  print "ASTRA DB VECTOR SEARCH" ;;
  print rule80 ;;
  try_except
    (if arg_list_collections args then list_collections
     else
       match query args with
       | Some q =>
           if PyStr.truthy q then query_astra q (collection args) (limit args)
           else print (nl ++ "[!] Error: Please provide a query or use --list-collections")
       | None =>
           print (nl ++ "[!] Error: Please provide a query or use --list-collections")
       end)
    (fun e =>
       print (nl ++ "[-] Error: " ++ str_of_exception e) ;;
       emit (PrintTraceback e)).

End Script.

End QueryAstra.

(** ** What is observed of a run *)

Module Observations.

Import Runtime Collaborators.

Section WithFloat.

Context {Float : Type}.

Local Abbreviation Trace := (Runtime.Trace Float).
Local Abbreviation Remote := (Runtime.Remote Float).
Local Abbreviation Call := (Runtime.Call Float).

(** A computation that only prints: it returns, and adds neither SDK calls
    nor submissions to the trace. *)
Definition quiet {A : Type} (m : M Float A) : Prop :=
  forall r t, exists a t',
    m r t = (Ok a, t ++ t') /\ calls_of t' = [] /\ submitted t' = [].

(** The [_id] fields of the documents submitted in a trace, in order. *)
Definition submitted_ids (t : Trace) : list (option (Value Float)) :=
  map (get "_id") (List.concat (submitted t)).

(** [not x or not y] of the credential check. *)
Definition credentials_missing (env : Env) : bool :=
  not_ (ASTRA_DB_API_ENDPOINT env) || not_ (ASTRA_DB_APPLICATION_TOKEN env).

(** Every call of [cs], made in this order after the calls [past], returns. *)
Fixpoint returns_all (r : Remote) (past cs : list Call) : Prop :=
  match cs with
  | [] => True
  | c :: rest => outcome r past c = None /\ returns_all r (past ++ [c]) rest
  end.

(** The three calls that open a query, and the search itself. *)
Definition query_calls (env : Env) (collection_name query_text : string)
    (limit : Z) : list Call :=
  [ DataAPIClient (ASTRA_DB_APPLICATION_TOKEN env);
    get_database_by_api_endpoint (ASTRA_DB_API_ENDPOINT env);
    get_collection collection_name;
    find query_text limit ].

End WithFloat.

(** The text [extract_text_from_pdf] accumulates over the pages. *)
Definition text_of_pages (pages : list string) : string :=
  fold_left (fun text page_text =>
               text ++ (page_text ++ IngestSimple.nl ++ IngestSimple.nl))%string
            pages ""%string.

End Observations.

(** ** Concrete runs used to exercise the scripts *)

Module Scenarios.

Import Runtime Collaborators.

(** Floats play no part in the runs below. *)
Definition Float : Type := unit.

(** A store that answers every call, holds no documents and no collections. *)
Definition remote_ok : Remote Float :=
  {| outcome := fun _ _ => None;
     found := fun _ _ _ => [];
     names := fun _ => [] |}.

(** How many [insert_many] calls a history holds. *)
Fixpoint inserts_so_far (past : list (Call Float)) : nat :=
  match past with
  | [] => 0
  | insert_many _ :: r => S (inserts_so_far r)
  | _ :: r => inserts_so_far r
  end.

(** A store that rejects the second batch of a run and accepts all others. *)
Definition remote_second_batch_fails : Remote Float :=
  {| outcome := fun past c =>
       match c with
       | insert_many _ =>
           if (inserts_so_far past =? 1)%nat
           then Some (StoreError "quota exceeded")
           else None
       | _ => None
       end;
     found := fun _ _ _ => [];
     names := fun _ => [] |}.

(** A store that refuses requests carrying no token. *)
Definition remote_requires_token : Remote Float :=
  {| outcome := fun past c =>
       match c with
       | list_collection_names | find _ _ | insert_many _
       | get_collection _ | create_collection _ =>
           match past with
           | DataAPIClient None :: _ => Some (StoreError "401 Unauthorized")
           | _ => None
           end
       | _ => None
       end;
     found := fun _ _ _ => [];
     names := fun _ => ["pdf_documents"] |}.

Definition env_ok : Env :=
  {| ASTRA_DB_API_ENDPOINT := Some
       "https://01234567-89ab-cdef-0123-456789abcdef-us-east1.apps.astra.datastax.com";
     ASTRA_DB_APPLICATION_TOKEN := Some "AstraCS:token" |}.

Definition env_no_token : Env :=
  {| ASTRA_DB_API_ENDPOINT := Some
       "https://01234567-89ab-cdef-0123-456789abcdef-us-east1.apps.astra.datastax.com";
     ASTRA_DB_APPLICATION_TOKEN := None |}.

(** Forty-five chunks, ["chunk 0"] to ["chunk 44"]. *)
Definition chunks45 : list string :=
  map (fun i => "chunk " ++ PyStr.str_of_nat i)%string (seq 0 45).

Definition embed_nothing (chunk : string) : list Float := [].

(** A splitter that cuts at every space. *)
Fixpoint split_on_spaces (word text : string) : list string :=
  match text with
  | EmptyString => match word with EmptyString => [] | _ => [word] end
  | String c rest =>
      if Ascii.eqb c " "%char
      then match word with
           | EmptyString => split_on_spaces "" rest
           | _ => word :: split_on_spaces "" rest
           end
      else split_on_spaces (word ++ String c "") rest
  end.

Definition split_text_words (cfg : RecursiveCharacterTextSplitter)
    (text : string) : Result (list string) :=
  Ok (split_on_spaces "" text).

(** A file system with one scanned, text-free PDF of two pages and one PDF
    with a page of text. *)
Definition fs_example : FileSystem :=
  fun path =>
    if String.eqb path "scans/blank.pdf" then Some (Pages [""; " "])
    else if String.eqb path "docs/paper.pdf" then Some (Pages ["ageing clocks"])
    else None.

Definition args_blank : IngestSimple.Args :=
  {| IngestSimple.pdf_path := "scans/blank.pdf";
     IngestSimple.collection := "pdf_documents";
     IngestSimple.arg_chunk_size := 1000;
     IngestSimple.arg_chunk_overlap := 200 |}.

Definition args_paper : IngestSimple.Args :=
  {| IngestSimple.pdf_path := "docs/paper.pdf";
     IngestSimple.collection := "pdf_documents";
     IngestSimple.arg_chunk_size := 1000;
     IngestSimple.arg_chunk_overlap := 200 |}.

End Scenarios.

(** ** test_connection.py: the connection test *)

Module TestConnection.

Import Runtime Collaborators.
Local Open Scope py_scope.

Definition nl : string := IngestSimple.nl.

Section Script.

Context {Float : Type}.

Variable env : Env.

Local Abbreviation M := (Runtime.M Float).

(** [f"{x}"] for a value that is [None] or a string. *)
Definition format_optional (x : option string) : string :=
  match x with
  | None => "None"
  | Some s => s
  end.

(** [x[:20]] for a value that is [None] or a string. *)
Definition first_20 (x : option string) : Result string :=
  match x with
  | None => Raise (TypeError "'NoneType' object is not subscriptable")
  | Some s => Ok (PyStr.take 20 s)
  end.

(** The statements of the [try] block. *)
Definition connect_and_list : M unit :=
  print (nl ++ "[*] Creating client...") ;;
  sdk (DataAPIClient (ASTRA_DB_APPLICATION_TOKEN env)) ;;
  print "[*] Getting database..." ;;
  sdk (get_database_by_api_endpoint (ASTRA_DB_API_ENDPOINT env)) ;;
  print "[*] Listing collections..." ;;
  collections <- sdk_list_collection_names ;;
  print (nl ++ "[+] SUCCESS! Connection working.") ;;
  print (nl ++ "Found " ++ PyStr.str_of_nat (List.length collections)
         ++ " collection(s):") ;;
  for_each collections (fun coll => print ("  - " ++ coll)).

(** The module body, top to bottom. *)
Definition script : M unit :=
  print (PyStr.repeat_str "=" 60) ;;
  print "ASTRA DB CONNECTION TEST" ;;
  print (PyStr.repeat_str "=" 60) ;;
  print ("Endpoint: " ++ format_optional (ASTRA_DB_API_ENDPOINT env)) ;;
  match first_20 (ASTRA_DB_APPLICATION_TOKEN env) with
  | Raise e => raise e
  | Ok prefix =>
      print ("Token: " ++ prefix ++ "...") ;;
      print (PyStr.repeat_str "=" 60) ;;
      try_except connect_and_list
        (fun e =>
           print (nl ++ "[-] ERROR: " ++ str_of_exception e) ;;
           emit (PrintTraceback e))
  end.

End Script.

End TestConnection.

(** ** Further observations of a run *)

Module Measures.

Import Runtime Collaborators.

Section WithFloat.

Context {Float : Type}.

Local Abbreviation Trace := (Runtime.Trace Float).
Local Abbreviation Doc := (Runtime.Doc Float).

(** The durations handed to [time.sleep], oldest first. *)
Fixpoint sleeps (t : Trace) : list nat :=
  match t with
  | [] => []
  | Sleep ms :: r => ms :: sleeps r
  | _ :: r => sleeps r
  end.

(** The exceptions whose traceback was printed, oldest first. *)
Fixpoint tracebacks (t : Trace) : list Exception :=
  match t with
  | [] => []
  | PrintTraceback e :: r => e :: tracebacks r
  | _ :: r => tracebacks r
  end.

(** The store refuses every batch, whenever it is asked. *)
Definition refuses_every_batch (r : Runtime.Remote Float) : Prop :=
  forall past batch, outcome r past (insert_many batch) <> None.

(** The store accepts every batch, whenever it is asked. *)
Definition accepts_every_batch (r : Runtime.Remote Float) : Prop :=
  forall past batch, outcome r past (insert_many batch) = None.

(** [float(z)] of an integer, as in [QueryAstra]. *)
Variable float_of_int : Z -> option Float.

(** A document [show_result] can display: its [$similarity], when present,
    is a float or an integer within the range of floats, and its
    [$vectorize], when present, is a string. *)
Definition displayable (doc : Doc) : bool :=
  match get "$similarity" doc with
  | None | Some (VFloat _) => true
  | Some (VInt z) =>
      match float_of_int z with
      | Some _ => true
      | None => false
      end
  | _ => false
  end
  && match get "$vectorize" doc with
     | None | Some (VStr _) => true
     | _ => false
     end.

End WithFloat.

(** Character [c] occurs in [s]. *)
Fixpoint occurs (c : ascii) (s : string) : bool :=
  match s with
  | EmptyString => false
  | String x r => Ascii.eqb x c || occurs c r
  end.

(** [old] occurs in [s] at some position. *)
Fixpoint occurs_in (old s : string) : bool :=
  match s with
  | EmptyString => PyStr.startswith old EmptyString
  | String _ r => PyStr.startswith old s || occurs_in old r
  end.

(** The lines of a batch the store refused, as the [$vectorize] script
    prints them. *)
Definition is_error_line (line : string) : bool :=
  PyStr.startswith "   Error inserting batch " line.

(** The line the [$vectorize] script prints after its insertion loop. *)
Definition success_line : string :=
  "[+] Successfully ingested chunks to Astra DB!".

(** The progress line the local-embedding script prints before chunk [i]
    is embedded. *)
Definition progress_line (total i : nat) : string :=
  "   Processing chunk " ++ PyStr.str_of_nat (i + 1) ++ "/"
  ++ PyStr.str_of_nat total ++ "...".

(** The progress lines of the local-embedding script. *)
Definition is_progress_line (line : string) : bool :=
  PyStr.startswith "   Processing chunk " line.

End Measures.

(** ** Further concrete runs *)

Module MoreScenarios.

Import Runtime Collaborators Scenarios.

(** A store in which the collection already exists: creating it raises,
    everything else returns. *)
Definition remote_collection_exists : Remote Float :=
  {| outcome := fun _ c =>
       match c with
       | create_collection _ => Some (StoreError "Collection already exists")
       | _ => None
       end;
     found := fun _ _ _ => [];
     names := fun _ => ["pdf_documents"] |}.

(** Two stored chunks of [paper.pdf], the first with a float as similarity
    score, the second with an integer. *)
Definition stored_docs : list (Doc Float) :=
  [ ("$similarity", VFloat tt)
      :: IngestSimple.make_doc "paper.pdf" 2 0 "ageing";
    ("$similarity", VInt 1)
      :: IngestSimple.make_doc "paper.pdf" 2 1 "clocks" ].

(** A store whose search returns the two stored chunks. *)
Definition remote_two_results : Remote Float :=
  {| outcome := fun _ _ => None;
     found := fun _ _ _ => stored_docs;
     names := fun _ => ["pdf_documents"] |}.

Definition env_no_endpoint : Env :=
  {| ASTRA_DB_API_ENDPOINT := None;
     ASTRA_DB_APPLICATION_TOKEN := Some "AstraCS:token" |}.

End MoreScenarios.

(** * Properties *)

(** ** Facts about the Python primitives *)

Module PyFacts.

Import PyStr PyList.

Lemma str_of_nat_inj (i j : nat) : str_of_nat i = str_of_nat j -> i = j.
Proof.
  unfold str_of_nat. intros H.
  apply DecimalNat.Unsigned.to_uint_inj.
  assert (E : Some (Nat.to_uint i) = Some (Nat.to_uint j)).
  { rewrite <- (NilEmpty.usu (Nat.to_uint i)), <- (NilEmpty.usu (Nat.to_uint j)).
    now rewrite H. }
  now injection E.
Qed.

Lemma append_inj_l (p a b : string) : (p ++ a = p ++ b)%string -> a = b.
Proof.
  induction p as [|c p IH]; simpl; intros H.
  - exact H.
  - injection H as H. now apply IH.
Qed.

Lemma append_assoc (a b c : string) :
  ((a ++ b) ++ c = a ++ (b ++ c))%string.
Proof.
  induction a as [|x a IH]; simpl; [reflexivity | now rewrite IH].
Qed.

(** A text made of whitespace only strips to the empty string. *)
Lemma lstrip_all_space (s : string) :
  all_chars isspace s = true -> lstrip s = ""%string.
Proof.
  induction s as [|c s IH]; simpl; intros H.
  - reflexivity.
  - apply andb_prop in H as [Hc Hs]. rewrite Hc. now apply IH.
Qed.

Lemma strip_all_space (s : string) :
  all_chars isspace s = true -> strip s = ""%string.
Proof.
  intros H. unfold strip. now rewrite (lstrip_all_space s H).
Qed.

(** No proper prefix of [".pdf"] followed by [".pdf"] starts with [".pdf"]:
    the pattern does not overlap itself. *)
Lemma startswith_pdf_app (s1 s2 : string) :
  s1 <> ""%string ->
  startswith ".pdf" (s1 ++ ".pdf" ++ s2) = startswith ".pdf" s1.
Proof.
  intros Hne.
  destruct s1 as [|c1 [|c2 [|c3 [|c4 r]]]]; simpl;
    try contradiction;
    repeat match goal with
           | |- context [Ascii.eqb ?a ?b] => destruct (Ascii.eqb a b)
           end; reflexivity.
Qed.

Lemma startswith_pdf_length (s : string) :
  startswith ".pdf" s = true -> 4 <= String.length s.
Proof.
  destruct s as [|c1 [|c2 [|c3 [|c4 r]]]]; simpl; intros H;
    repeat match type of H with
           | context [Ascii.eqb ?a ?b] => destruct (Ascii.eqb a b)
           end; simpl in H; try discriminate; lia.
Qed.

(** The scan treats an occurrence of [".pdf"] the same wherever it sits. *)
Lemma replace_scan_pdf_app (s2 s1 : string) (skip : nat) :
  skip <= String.length s1 ->
  replace_scan ".pdf" "" skip (s1 ++ ".pdf" ++ s2)
  = (replace_scan ".pdf" "" skip s1 ++ replace_scan ".pdf" "" 0 s2)%string.
Proof.
  revert skip. induction s1 as [|c s1 IH]; intros skip Hskip.
  - simpl in Hskip. assert (skip = 0) by lia. subst skip. reflexivity.
  - destruct skip as [|k].
    + change ((String c s1 ++ ".pdf" ++ s2)%string)
        with (String c (s1 ++ ".pdf" ++ s2)%string).
      cbn [replace_scan].
      change (String c (s1 ++ ".pdf" ++ s2)%string)
        with ((String c s1 ++ ".pdf" ++ s2)%string).
      rewrite startswith_pdf_app by discriminate.
      destruct (startswith ".pdf" (String c s1)) eqn:E.
      * apply startswith_pdf_length in E. simpl in E.
        change (String.length ".pdf" - 1) with 3.
        simpl. apply IH. lia.
      * simpl. f_equal. apply IH. lia.
    + simpl. apply IH. simpl in Hskip. lia.
Qed.

Lemma replace_pdf_app (s1 s2 : string) :
  replace ".pdf" "" (s1 ++ ".pdf" ++ s2)
  = (replace ".pdf" "" s1 ++ replace ".pdf" "" s2)%string.
Proof.
  unfold replace. apply replace_scan_pdf_app. lia.
Qed.

End PyFacts.

(** ** Facts about stepping through a list in slices *)

Module SliceFacts.

Import PyList.

Section Slices.

Context {A : Type}.

Lemma slice_width (i b : nat) (xs : list A) :
  slice i (i + b) xs = firstn b (skipn i xs).
Proof.
  unfold slice. f_equal. lia.
Qed.

Lemma slices_succ (b m : nat) (xs : list A) :
  slices b (S m) xs = firstn b xs :: slices b m (skipn b xs).
Proof.
  unfold slices. cbn [seq map]. f_equal.
  - rewrite slice_width. reflexivity.
  - rewrite <- seq_shift, !map_map. apply map_ext. intros k.
    rewrite !slice_width, skipn_skipn. do 2 f_equal. lia.
Qed.

Lemma concat_slices (b m : nat) (xs : list A) :
  List.length xs <= m * b -> List.concat (slices b m xs) = xs.
Proof.
  revert xs. induction m as [|m IH]; intros xs H.
  - simpl in H. destruct xs; [reflexivity | simpl in H; lia].
  - rewrite slices_succ. cbn [List.concat]. rewrite IH.
    + apply firstn_skipn.
    + rewrite length_skipn. simpl in H. lia.
Qed.



End Slices.

(** Ceiling division by twenty, as [range] computes its length. *)
Lemma ceil20_bounds (n : nat) :
  let m := (n + 20 - 1) / 20 in
  n <= m * 20 /\ (forall k, k < m -> k * 20 < n).
Proof.
  intros m.
  pose proof (Nat.div_mod_eq (n + 20 - 1) 20) as E.
  pose proof (Nat.mod_upper_bound (n + 20 - 1) 20) as U.
  fold m in E. split; [lia|]. intros k Hk. nia.
Qed.


End SliceFacts.

(** ** Facts about traces and the effect monad *)

Module RunFacts.

Import Runtime Observations.

Section Traces.

Context {Float : Type}.

Local Abbreviation Trace := (Runtime.Trace Float).

Lemma calls_of_app (t1 t2 : Trace) :
  calls_of (t1 ++ t2) = calls_of t1 ++ calls_of t2.
Proof.
  induction t1 as [|e t1 IH]; simpl; [reflexivity|].
  destruct e; simpl; now rewrite IH.
Qed.

Lemma submitted_app (t1 t2 : Trace) :
  submitted (t1 ++ t2) = submitted t1 ++ submitted t2.
Proof.
  induction t1 as [|e t1 IH]; simpl; [reflexivity|].
  destruct e as [l|c|n|x]; simpl; try now rewrite IH.
  destruct c; simpl; now rewrite IH.
Qed.

Lemma quiet_print (line : string) : quiet (Float:=Float) (print line).
Proof.
  intros r t. exists tt, [Print line]. repeat split.
Qed.

Lemma quiet_ret {A : Type} (a : A) : quiet (ret (Float:=Float) a).
Proof.
  intros r t. exists a, []. rewrite app_nil_r. repeat split.
Qed.

Lemma quiet_bind {A B : Type} (m : M Float A) (k : A -> M Float B) :
  quiet m -> (forall a, quiet (k a)) -> quiet (bind m k).
Proof.
  intros Hm Hk r t.
  destruct (Hm r t) as (a & t1 & E1 & C1 & S1).
  destruct (Hk a r (t ++ t1)) as (b & t2 & E2 & C2 & S2).
  exists b, (t1 ++ t2). unfold bind. rewrite E1, E2, app_assoc.
  repeat split.
  - rewrite calls_of_app, C1, C2. reflexivity.
  - rewrite submitted_app, S1, S2. reflexivity.
Qed.

(** The submissions of a trace are among its SDK calls. *)
Lemma submitted_nil_of_calls_nil (t : Trace) :
  calls_of t = [] -> submitted t = [].
Proof.
  induction t as [|e t IH]; simpl; [reflexivity|].
  destruct e; simpl; try exact IH. discriminate.
Qed.

(** How [bind] runs after each kind of step. *)
Lemma bind_print {B : Type} (line : string) (k : unit -> M Float B)
    (r : Remote Float) (t : Trace) :
  bind (print line) k r t = k tt r (t ++ [Print line]).
Proof. reflexivity. Qed.

Lemma bind_sdk {B : Type} (c : Call Float) (k : unit -> M Float B)
    (r : Remote Float) (t : Trace) :
  bind (sdk c) k r t
  = match outcome r (calls_of t) c with
    | None => k tt r (t ++ [Sdk c])
    | Some e => (Raise e, t ++ [Sdk c])
    end.
Proof.
  unfold bind, sdk. destruct (outcome r (calls_of t) c); reflexivity.
Qed.

Lemma bind_ret {A B : Type} (a : A) (k : A -> M Float B)
    (r : Remote Float) (t : Trace) :
  bind (ret a) k r t = k a r t.
Proof. reflexivity. Qed.

Lemma bind_assoc {A B C : Type} (m : M Float A) (f : A -> M Float B)
    (k : B -> M Float C) (r : Remote Float) (t : Trace) :
  bind (bind m f) k r t = bind m (fun a => bind (f a) k) r t.
Proof.
  unfold bind. destruct (m r t) as [[a | e] t']; reflexivity.
Qed.

Lemma bind_ok {A B : Type} (m : M Float A) (k : A -> M Float B)
    (r : Remote Float) (t t' : Trace) (a : A) :
  m r t = (Ok a, t') -> bind m k r t = k a r t'.
Proof. intros E. unfold bind. now rewrite E. Qed.

Lemma bind_raise {A B : Type} (m : M Float A) (k : A -> M Float B)
    (r : Remote Float) (t t' : Trace) (e : Exception) :
  m r t = (Raise e, t') -> bind m k r t = (Raise e, t').
Proof. intros E. unfold bind. now rewrite E. Qed.

End Traces.

End RunFacts.

(** ** Facts about ingest_pdf_simple.py *)

Module SimpleFacts.

Import Runtime Collaborators Observations RunFacts IngestSimple.

Section Facts.

Context {Float : Type}.

Local Abbreviation Doc := (Runtime.Doc Float).
Local Abbreviation Trace := (Runtime.Trace Float).
Local Abbreviation Remote := (Runtime.Remote Float).

Lemma batches_slices (documents : list Doc) :
  batches documents
  = PyList.slices 20 ((List.length documents + 20 - 1) / 20) documents.
Proof. reflexivity. Qed.

Lemma concat_batches (documents : list Doc) :
  List.concat (batches documents) = documents.
Proof.
  rewrite batches_slices. apply SliceFacts.concat_slices.
  apply (SliceFacts.ceil20_bounds (List.length documents)).
Qed.

(** One pass of the insertion loop always returns: the batch is handed to
    the store, one line is printed, and the loop sleeps.  When the store
    raises, the printed line is the error report. *)
Lemma insert_batch_run (documents : list Doc) (i : nat) (r : Remote)
    (t : Trace) :
  let batch := PyList.slice i (i + batch_size) documents in
  exists line,
    insert_batch documents i r t
    = (Ok tt, t ++ [Sdk (insert_many batch); Print line; Sleep 500])
    /\ (forall e, outcome r (calls_of t) (insert_many batch) = Some e ->
        line = ("   Error inserting batch "
                ++ PyStr.str_of_nat (i / batch_size + 1) ++ ": "
                ++ str_of_exception e)%string).
Proof.
  intros batch. unfold insert_batch. fold batch.
  unfold bind, try_except, sdk, print, sleep, emit.
  destruct (outcome r (calls_of t) (insert_many batch)) as [e|] eqn:E.
  - eexists. split.
    + rewrite <- !app_assoc. reflexivity.
    + intros e' He'. injection He' as <-. reflexivity.
  - eexists. split.
    + rewrite <- !app_assoc. reflexivity.
    + intros e' He'. discriminate.
Qed.

(** The loop over any list of start indices attempts the slice at every
    index, whatever the store answers. *)
Lemma insert_loop_run (documents : list Doc) (starts : list nat) (r : Remote)
    (t : Trace) :
  exists t',
    for_each starts (insert_batch documents) r t = (Ok tt, t ++ t')
    /\ submitted t'
       = map (fun i => PyList.slice i (i + batch_size) documents) starts.
Proof.
  revert t. induction starts as [|i starts IH]; intros t.
  - exists []. rewrite app_nil_r. split; reflexivity.
  - destruct (insert_batch_run documents i r t) as (line & E & _).
    destruct (IH (t ++ [Sdk (insert_many
                (PyList.slice i (i + batch_size) documents));
                        Print line; Sleep 500])) as (t' & E' & S').
    eexists. cbn [for_each]. unfold bind at 1. rewrite E, E'.
    rewrite <- app_assoc. split; [reflexivity|].
    rewrite submitted_app, S'. reflexivity.
Qed.

Lemma insert_documents_run (documents : list Doc) (r : Remote) (t : Trace) :
  exists t',
    insert_documents documents r t = (Ok tt, t ++ t')
    /\ submitted t' = batches documents.
Proof.
  apply insert_loop_run.
Qed.

Lemma map_fst_enumerate_from {A : Type} (start : nat) (xs : list A) :
  map fst (PyList.enumerate_from start xs) = seq start (List.length xs).
Proof.
  revert start. induction xs as [|x xs IH]; intros start; simpl.
  - reflexivity.
  - now rewrite IH.
Qed.

(** The identifiers of the prepared documents are [record_id] at the
    indices [0, 1, ..., len(chunks) - 1]. *)
Lemma prepared_ids (chunks : list string) (f : string) :
  map (get "_id") (prepare_documents (Float:=Float) chunks f)
  = map (fun i => Some (VStr (record_id f i))) (seq 0 (List.length chunks)).
Proof.
  unfold prepare_documents, PyList.enumerate.
  rewrite <- (map_fst_enumerate_from 0 chunks), !map_map.
  apply map_ext. intros [i chunk]. reflexivity.
Qed.

End Facts.

End SimpleFacts.

(** ** Record identifiers *)

Module RecordIdClaims.

Import Runtime PyFacts.

(** C4. The record identifier is a function of the source file name and of
    the sequence index, and for one file name two different indices never
    give the same identifier, in the [$vectorize] script as in the
    local-embedding script; the documents the two scripts build for chunk
    [i] carry exactly that identifier. *)
Theorem C4_record_id_injective_within_document
    (pdf_filename : string) (i j : nat) :
  i <> j ->
  IngestSimple.record_id pdf_filename i <> IngestSimple.record_id pdf_filename j
  /\ IngestV2.record_id pdf_filename i <> IngestV2.record_id pdf_filename j
  /\ (forall (Float : Type) (total : nat) (chunk : string),
        get "_id" (IngestSimple.make_doc (Float:=Float) pdf_filename total i chunk)
        = Some (VStr (IngestSimple.record_id pdf_filename i)))
  /\ (forall (Float : Type) (embed_query : string -> list Float)
             (total : nat) (chunk : string),
        get "_id" (IngestV2.make_doc embed_query pdf_filename total i chunk)
        = Some (VStr (IngestV2.record_id pdf_filename i))).
Proof.
  intros Hij. repeat split.
  - unfold IngestSimple.record_id. intros H.
    apply append_inj_l, append_inj_l, str_of_nat_inj in H. contradiction.
  - unfold IngestV2.record_id. intros H.
    apply append_inj_l, append_inj_l, str_of_nat_inj in H. contradiction.
Qed.

Lemma C4_witness :
  IngestSimple.record_id "paper.pdf" 0 <> IngestSimple.record_id "paper.pdf" 1
  /\ IngestV2.record_id "paper.pdf" 0 <> IngestV2.record_id "paper.pdf" 1.
Proof.
  destruct (C4_record_id_injective_within_document "paper.pdf" 0 1)
    as (H1 & H2 & _).
  - discriminate.
  - split; assumption.
Defined.

(** C10. In the [$vectorize] script the identifier is built from the file
    name with every occurrence of [.pdf] removed, wherever it sits, followed
    by [_] and the index; so the two different file names [report.pdf.pdf]
    and [report.pdf] get the same identifier at every index. *)
Theorem C10_record_id_strips_every_pdf_occurrence :
  (forall (s1 s2 : string) (i : nat),
      IngestSimple.record_id (s1 ++ ".pdf" ++ s2) i
      = (PyStr.replace ".pdf" "" s1 ++ PyStr.replace ".pdf" "" s2
         ++ "_" ++ PyStr.str_of_nat i)%string)
  /\ "report.pdf.pdf"%string <> "report.pdf"%string
  /\ (forall i : nat,
        IngestSimple.record_id "report.pdf.pdf" i
        = IngestSimple.record_id "report.pdf" i).
Proof.
  split; [|split].
  - intros s1 s2 i. unfold IngestSimple.record_id.
    rewrite replace_pdf_app. apply append_assoc.
  - discriminate.
  - intros i. reflexivity.
Qed.

End RecordIdClaims.

(** ** Batching *)

Module BatchClaims.

Import Runtime Observations RunFacts SimpleFacts.



End BatchClaims.

(** ** Facts about the two [ingest_to_astra] functions *)

Module IngestFacts.

Import Runtime Collaborators Observations RunFacts SimpleFacts.

Section Facts.

Context {Float : Type}.

Local Abbreviation Doc := (Runtime.Doc Float).
Local Abbreviation Trace := (Runtime.Trace Float).
Local Abbreviation Remote := (Runtime.Remote Float).

(** Without credentials the [$vectorize] script raises after its first
    line of output, before any SDK call. *)
Lemma simple_ingest_without_credentials (env : Env) (chunks : list string)
    (collection_name pdf_filename : string) (r : Remote) (t : Trace) :
  credentials_missing env = true ->
  exists line,
    IngestSimple.ingest_to_astra env chunks collection_name pdf_filename r t
    = (Raise (ValueError "Missing Astra DB credentials. Check your .env file."),
       t ++ [Print line]).
Proof.
  unfold credentials_missing. intros H. eexists.
  unfold IngestSimple.ingest_to_astra. rewrite bind_print, H. reflexivity.
Qed.

(** A run of the [$vectorize] script that returns has submitted every
    batch of the prepared documents, and nothing else. *)
Lemma simple_ingest_submits_all (env : Env) (chunks : list string)
    (collection_name pdf_filename : string) (r : Remote) (t t' : Trace) :
  IngestSimple.ingest_to_astra env chunks collection_name pdf_filename r t
  = (Ok tt, t') ->
  credentials_missing env = false
  /\ submitted t'
     = submitted t
       ++ IngestSimple.batches
            (IngestSimple.prepare_documents chunks pdf_filename).
Proof.
  unfold IngestSimple.ingest_to_astra, credentials_missing.
  rewrite bind_print.
  destruct (not_ (ASTRA_DB_API_ENDPOINT env)
            || not_ (ASTRA_DB_APPLICATION_TOKEN env)); [discriminate|].
  rewrite bind_print, bind_sdk.
  destruct (outcome r _ _); [discriminate|].
  rewrite bind_sdk. destruct (outcome r _ _); [discriminate|].
  rewrite bind_print, bind_sdk. destruct (outcome r _ _); [discriminate|].
  rewrite !bind_print.
  match goal with
  | |- bind (IngestSimple.insert_documents ?d) _ _ ?t0 = _ -> _ =>
      destruct (insert_documents_run d r t0) as (t1 & E1 & S1);
      rewrite (bind_ok _ _ _ _ _ _ E1)
  end.
  rewrite !bind_print. unfold ret. intros H. injection H as <-.
  split; [reflexivity|].
  rewrite !submitted_app, S1. cbn [submitted]. rewrite !app_nil_r.
  reflexivity.
Qed.

(** In the local-embedding script the first batch the store refuses ends
    the loop: the exception leaves [insert_documents] and the batches that
    follow are never handed to the store. *)
Lemma v2_insert_loop_stops (documents : list Doc) (i : nat)
    (rest : list nat) (r : Remote) (t : Trace) (e : Exception) :
  let batch := PyList.slice i (i + IngestV2.batch_size) documents in
  outcome r (calls_of t) (insert_many batch) = Some e ->
  for_each (i :: rest) (IngestV2.insert_batch documents) r t
  = (Raise e, t ++ [Sdk (insert_many batch)]).
Proof.
  intros batch H. cbn [for_each]. unfold IngestV2.insert_batch. fold batch.
  unfold bind at 1. rewrite bind_sdk, H. reflexivity.
Qed.

Lemma v2_ingest_without_credentials (embed_query : string -> list Float)
    (env : Env) (chunks : list string)
    (collection_name pdf_filename : string) (r : Remote) (t : Trace) :
  credentials_missing env = true ->
  exists line,
    IngestV2.ingest_to_astra embed_query env chunks collection_name
      pdf_filename r t
    = (Raise (ValueError "Missing Astra DB credentials. Check your .env file."),
       t ++ [Print line]).
Proof.
  unfold credentials_missing. intros H. eexists.
  unfold IngestV2.ingest_to_astra. rewrite bind_print, H. reflexivity.
Qed.

End Facts.

End IngestFacts.

(** ** Ingestion runs *)

Module IngestClaims.

Import Runtime Collaborators Observations RunFacts SimpleFacts IngestFacts
  Scenarios.

(** C1. Forty-five chunks are ingested into a store that refuses the second
    batch.  The [$vectorize] script reports the failure and goes on: it
    returns after handing batches of 20, 20 and 5 documents to the store.
    The local-embedding script stops there: the exception leaves
    [ingest_to_astra] and the third batch is never submitted. *)
Theorem C1_v2_aborts_at_first_failed_batch :
  let simple :=
    IngestSimple.ingest_to_astra env_ok chunks45 "pdf_documents" "paper.pdf"
      remote_second_batch_fails [] in
  let v2 :=
    IngestV2.ingest_to_astra embed_nothing env_ok chunks45 "pdf_documents"
      "paper.pdf" remote_second_batch_fails [] in
  fst simple = Ok tt
  /\ map (@List.length _) (submitted (snd simple)) = [20; 20; 5]
  /\ In "   Error inserting batch 2: quota exceeded"%string
        (printed (snd simple))
  /\ fst v2 = Raise (StoreError "quota exceeded")
  /\ map (@List.length _) (submitted (snd v2)) = [20; 20].
Proof.
  vm_compute. repeat split; auto 30.
Qed.

End IngestClaims.

(** ** Facts about query_astra.py *)

Module QueryFacts.

Import Runtime Collaborators Observations RunFacts IngestFacts QueryAstra.

Section Facts.

Context {Float : Type}.

Variable repr_other : Value Float -> string.
Variable fixed4 : Float -> string.
Variable float_of_int : Z -> option Float.

Local Abbreviation Trace := (Runtime.Trace Float).
Local Abbreviation Remote := (Runtime.Remote Float).
Local Abbreviation Call := (Runtime.Call Float).

Lemma bind_sdk_find {B : Type} (q : string) (limit : Z)
    (k : list (Doc Float) -> M Float B) (r : Remote) (t : Trace) :
  bind (sdk_find q limit) k r t
  = match outcome r (calls_of t) (find q limit) with
    | None => k (found r (calls_of t) q limit) r (t ++ [Sdk (find q limit)])
    | Some e => (Raise e, t ++ [Sdk (find q limit)])
    end.
Proof.
  unfold bind, sdk_find, sdk.
  destruct (outcome r (calls_of t) (find q limit)); reflexivity.
Qed.

Lemma bind_sdk_names {B : Type} (k : list string -> M Float B) (r : Remote)
    (t : Trace) :
  bind sdk_list_collection_names k r t
  = match outcome r (calls_of t) list_collection_names with
    | None => k (names r (calls_of t)) r (t ++ [Sdk list_collection_names])
    | Some e => (Raise e, t ++ [Sdk list_collection_names])
    end.
Proof.
  unfold bind, sdk_list_collection_names, sdk.
  destruct (outcome r (calls_of t) list_collection_names); reflexivity.
Qed.

(** Without credentials [query_astra] raises at once. *)
Lemma query_without_credentials (env : Env) (q c : string) (limit : Z)
    (r : Remote) (t : Trace) :
  credentials_missing env = true ->
  query_astra repr_other fixed4 float_of_int env q c limit r t
  = (Raise missing_credentials, t).
Proof.
  unfold credentials_missing, query_astra. intros H. rewrite H. reflexivity.
Qed.

Lemma quiet_show_collections (collections : list (nat * string)) :
  quiet (Float:=Float)
    (for_each collections
       (fun ic => print (PyStr.str_of_nat (fst ic) ++ ". " ++ snd ic))).
Proof.
  induction collections as [|ic rest IH]; cbn [for_each].
  - apply quiet_ret.
  - apply quiet_bind; [apply quiet_print | intros _; exact IH].
Qed.

(** [list_collections] has no credential check: whatever the environment
    holds, its first step after one line of output is to build the client,
    and unless an SDK call raises it goes on to ask the store for its
    collections. *)
Lemma list_collections_calls (env : Env) (r : Remote) :
  let run := list_collections env r [] in
  let c1 := DataAPIClient (Float:=Float) (ASTRA_DB_APPLICATION_TOKEN env) in
  let c2 := get_database_by_api_endpoint (Float:=Float)
              (ASTRA_DB_API_ENDPOINT env) in
  (exists rest, calls_of (snd run) = c1 :: rest)
  /\ (returns_all r [] [c1; c2] ->
      calls_of (snd run) = [c1; c2; list_collection_names]).
Proof.
  intros run c1 c2. unfold run, list_collections.
  rewrite bind_print, bind_sdk. fold c1. cbn [calls_of app].
  destruct (outcome r [] c1) eqn:E1.
  { split; [eexists; reflexivity|]. intros [H _]. congruence. }
  rewrite bind_sdk. fold c2. cbn [calls_of app].
  destruct (outcome r [c1] c2) eqn:E2.
  { split; [eexists; reflexivity|]. intros (_ & H & _). simpl in H.
    congruence. }
  rewrite bind_print, bind_sdk_names. cbn [calls_of app].
  destruct (outcome r [c1; c2] list_collection_names) eqn:E3.
  { split; [eexists|intros _]; reflexivity. }
  match goal with
  | |- context [bind ?m ?k r ?t0] =>
      assert (Q : quiet (bind m k))
  end.
  { repeat (apply quiet_bind; [apply quiet_print | intros _]).
    apply quiet_bind; [apply quiet_show_collections | intros _].
    apply quiet_bind; [apply quiet_print | intros _]. apply quiet_print. }
  match goal with
  | |- context [bind ?m ?k r ?t0] =>
      destruct (Q r t0) as (a & t' & E & C & _); rewrite E
  end.
  cbn [snd]. rewrite calls_of_app, C. cbn [calls_of app].
  split; [eexists|intros _]; reflexivity.
Qed.

End Facts.

End QueryFacts.

(** ** The query client *)

Module QueryClaims.

Import Runtime Collaborators Observations RunFacts IngestFacts QueryAstra
  QueryFacts Scenarios.

(** C8. With the store endpoint configured and no token, [list_collections]
    raises no configuration error: it builds the client, fetches the
    database handle and asks the store for its collections, and the only
    exception is the one the store raises.  On the same environment
    [query_astra] and both [ingest_to_astra] functions raise [ValueError]
    before any SDK call. *)
Theorem C8_list_collections_has_no_credential_check :
  let listing := list_collections env_no_token remote_requires_token [] in
  let querying :=
    query_astra (fun _ => ""%string) (fun _ => ""%string) (fun _ => Some tt)
      env_no_token
      "frailty index" "pdf_documents" 5 remote_requires_token [] in
  let ingesting :=
    IngestSimple.ingest_to_astra env_no_token chunks45 "pdf_documents"
      "paper.pdf" remote_requires_token [] in
  let ingesting_v2 :=
    IngestV2.ingest_to_astra embed_nothing env_no_token chunks45
      "pdf_documents" "paper.pdf" remote_requires_token [] in
  credentials_missing env_no_token = true
  /\ fst listing = Raise (StoreError "401 Unauthorized")
  /\ calls_of (snd listing)
     = [ DataAPIClient None;
         get_database_by_api_endpoint (Some
            "https://01234567-89ab-cdef-0123-456789abcdef-us-east1.apps.astra.datastax.com"%string);
         list_collection_names ]
  /\ fst querying = Raise missing_credentials
  /\ calls_of (snd querying) = []
  /\ fst ingesting = Raise missing_credentials
  /\ calls_of (snd ingesting) = []
  /\ fst ingesting_v2 = Raise missing_credentials
  /\ calls_of (snd ingesting_v2) = [].
Proof.
  vm_compute. repeat split.
Qed.



End QueryClaims.

(** ** Extraction and chunking *)

Module PipelineClaims.

Import Runtime Collaborators Observations RunFacts IngestSimple Scenarios.

Section Facts.

Context {Float : Type}.

Local Abbreviation Trace := (Runtime.Trace Float).
Local Abbreviation Remote := (Runtime.Remote Float).

Lemma extract_pages_run (total : nat) (pages : list string) :
  forall (start : nat) (text : string),
  exists lines,
    forall (r : Remote) (t : Trace),
      extract_pages total (PyList.enumerate_from start pages) text r t
      = (Ok (fold_left
               (fun text page_text => text ++ (page_text ++ nl ++ nl))%string
               pages text),
         t ++ map Print lines).
Proof.
  induction pages as [|p pages IH]; intros start text.
  - exists []. intros r t. cbn. now rewrite app_nil_r.
  - destruct (IH (S start) (text ++ (p ++ nl ++ nl))%string) as (lines & E).
    eexists (_ :: lines). intros r t.
    cbn [PyList.enumerate_from extract_pages fold_left].
    rewrite bind_print, E, <- app_assoc. reflexivity.
Qed.

Lemma extract_text_run (fs : FileSystem) (pdf_path : string)
    (pages : list string) :
  fs pdf_path = Some (Pages pages) ->
  exists lines,
    forall (r : Remote) (t : Trace),
      extract_text_from_pdf fs pdf_path r t
      = (Ok (text_of_pages pages), t ++ map Print lines).
Proof.
  intros Hfs.
  destruct (extract_pages_run (List.length pages) pages 1 ""%string)
    as (lines & E).
  eexists (_ :: lines ++ [_]). intros r t.
  unfold extract_text_from_pdf. rewrite bind_print, Hfs.
  rewrite (bind_ok _ _ _ _ _ _ (E r _)), bind_print.
  unfold ret, text_of_pages. f_equal.
  cbn [map]. rewrite map_app, <- !app_assoc. reflexivity.
Qed.

End Facts.

(** C7. When the text extracted from the PDF is empty or holds only
    whitespace, [main] returns after printing its banner, the extraction
    log and the no-text error line.  The run is the same whatever the
    splitter would return, so no chunk is made, and its trace holds printed
    lines only: no SDK call, hence no batch, reaches the store. *)
Theorem C7_blank_text_aborts_before_store {Float : Type} (fs : FileSystem)
    (env : Env) (args : Args) (r : Remote Float) (pages : list string) :
  fs (pdf_path args) = Some (Pages pages) ->
  PyStr.all_chars PyStr.isspace (text_of_pages pages) = true ->
  exists lines,
    calls_of (Float:=Float) (map Print (lines ++ [no_text_message])) = []
    /\ submitted (Float:=Float) (map Print (lines ++ [no_text_message])) = []
    /\ forall split_text,
         main split_text fs env args r []
         = (Ok tt, map Print (lines ++ [no_text_message])).
Proof.
  intros Hfs Hblank.
  destruct (extract_text_run (Float:=Float) fs (pdf_path args) pages Hfs)
    as (lines & E).
  exists ([ rule; "PDF TO ASTRA VECTOR DATABASE INGESTION";
            "Using Astra DB Built-in Vectorization"; rule;
            "PDF File: " ++ basename (pdf_path args);
            "Collection: " ++ collection args;
            "Chunk Size: " ++ PyStr.str_of_Z (arg_chunk_size args);
            "Chunk Overlap: " ++ PyStr.str_of_Z (arg_chunk_overlap args);
            rule; "" ]%string ++ lines).
  assert (C : forall ls : list string,
             calls_of (Float:=Float) (map Print ls) = []).
  { induction ls; [reflexivity | exact IHls]. }
  split; [apply C|]. split; [apply submitted_nil_of_calls_nil, C|].
  intros split_text. unfold main. rewrite Hfs, !bind_print.
  unfold try_except, main_steps.
  rewrite (bind_ok _ _ _ _ _ _ (E r _)).
  rewrite (PyFacts.strip_all_space _ Hblank). cbn [PyStr.truthy negb].
  unfold print, emit. f_equal.
  rewrite !map_app. reflexivity.
Qed.

Lemma C7_witness :
  exists lines,
    forall split_text,
      main split_text fs_example env_ok args_blank remote_ok []
      = (Ok tt, map (Print (Float:=Scenarios.Float))
                    (lines ++ [no_text_message])).
Proof.
  destruct (C7_blank_text_aborts_before_store (Float:=Scenarios.Float)
              fs_example env_ok args_blank remote_ok [""; " "]%string
              eq_refl eq_refl) as (lines & _ & _ & H).
  exists lines. exact H.
Defined.

(** C5. Two runs of the extract, chunk and ingest steps of the [$vectorize]
    script on the same PDF, parameters and file name that both return have
    submitted the same record identifiers in the same order, whatever the
    store answered to each batch: [record_id] at the indices [0 .. n - 1]
    for one [n], each once.  The second run therefore addresses the
    identifiers of the first and no others. *)
Theorem C5_reingestion_same_record_ids {Float : Type}
    (split_text : RecursiveCharacterTextSplitter -> string
                  -> Result (list string))
    (fs : FileSystem) (env : Env) (args : Args) (pdf_filename : string)
    (r1 r2 : Remote Float) (t1 t2 : Trace Float) :
  main_steps split_text fs env args pdf_filename r1 [] = (Ok tt, t1) ->
  main_steps split_text fs env args pdf_filename r2 [] = (Ok tt, t2) ->
  exists n,
    let ids := map (fun i => Some (VStr (Float:=Float)
                                     (record_id pdf_filename i)))
                   (seq 0 n) in
    submitted_ids t1 = ids /\ submitted_ids t2 = ids /\ NoDup ids.
Proof.
  assert (P : forall ls : list string,
             submitted (Float:=Float) (map Print ls) = []).
  { induction ls; [reflexivity | exact IHls]. }
  unfold main_steps.
  destruct (fs (pdf_path args)) as [[pages | e] |] eqn:Hfs.
  - destruct (extract_text_run (Float:=Float) fs (pdf_path args) pages Hfs)
      as (lines & E).
    rewrite (bind_ok _ _ _ _ _ _ (E r1 _)), (bind_ok _ _ _ _ _ _ (E r2 _)).
    destruct (negb (PyStr.truthy (PyStr.strip (text_of_pages pages)))).
    + unfold print, emit. intros H1 H2.
      injection H1 as <-. injection H2 as <-. exists 0.
      unfold submitted_ids. cbn [app]. rewrite !submitted_app, !P.
      repeat split. constructor.
    + unfold chunk_text. rewrite !bind_assoc, !bind_print.
      destruct (split_text _ (text_of_pages pages)) as [chunks | e];
        [|discriminate].
      rewrite !bind_assoc, !bind_print, !bind_ret.
      match goal with
      | |- bind ?m _ r1 ?u = _ -> _ =>
          destruct (m r1 u) as [[[] | e1] u1] eqn:I1;
            [rewrite (bind_ok _ _ _ _ _ _ I1)
            |rewrite (bind_raise _ _ _ _ _ _ I1); discriminate]
      end.
      intros H1.
      match goal with
      | |- bind ?m _ r2 ?u = _ -> _ =>
          destruct (m r2 u) as [[[] | e2] u2] eqn:I2;
            [rewrite (bind_ok _ _ _ _ _ _ I2)
            |rewrite (bind_raise _ _ _ _ _ _ I2); discriminate]
      end.
      revert H1. rewrite !bind_print. unfold print, emit. intros H1 H2.
      injection H1 as <-. injection H2 as <-.
      apply IngestFacts.simple_ingest_submits_all in I1 as [_ S1].
      apply IngestFacts.simple_ingest_submits_all in I2 as [_ S2].
      exists (List.length chunks). unfold submitted_ids.
      rewrite !submitted_app, S1, S2, !submitted_app, !P.
      cbn [submitted app]. rewrite !app_nil_r.
      rewrite SimpleFacts.concat_batches, SimpleFacts.prepared_ids.
      repeat split.
      apply Injective_map_NoDup; [|apply seq_NoDup].
      intros i j Eij. injection Eij as Eij. unfold record_id in Eij.
      now apply PyFacts.append_inj_l, PyFacts.append_inj_l,
        PyFacts.str_of_nat_inj in Eij.
  - unfold extract_text_from_pdf. rewrite Hfs. discriminate.
  - unfold extract_text_from_pdf. rewrite Hfs. discriminate.
Qed.

Lemma C5_witness :
  exists t1 t2 : Trace Scenarios.Float,
    submitted_ids t1 = submitted_ids t2
    /\ submitted_ids t1
       = [Some (VStr "paper_0"%string); Some (VStr "paper_1"%string)].
Proof.
  eexists. eexists.
  destruct (C5_reingestion_same_record_ids split_text_words fs_example
              env_ok args_paper "paper.pdf" remote_ok
              remote_second_batch_fails _ _ eq_refl eq_refl)
    as (n & E1 & E2 & _).
  split.
  - rewrite E1, E2. reflexivity.
  - reflexivity.
Defined.

End PipelineClaims.

(** ** Record identifiers across documents *)

Module RecordIdFacts.

Import Runtime PyStr PyFacts Measures.

Lemma occurs_app (c : ascii) (a b : string) :
  occurs c (a ++ b) = occurs c a || occurs c b.
Proof.
  induction a as [|x a IH]; simpl; [reflexivity|].
  rewrite IH. apply orb_assoc.
Qed.

(** A decimal numeral holds digits only. *)
Lemma numeral_has_no_underscore (d : Decimal.uint) :
  occurs "_" (NilEmpty.string_of_uint d) = false.
Proof.
  induction d; simpl; assumption || reflexivity.
Qed.

Lemma str_of_nat_has_no_underscore (n : nat) :
  occurs "_" (str_of_nat n) = false.
Proof.
  apply numeral_has_no_underscore.
Qed.

(** A string is cut in one way only at its last underscore. *)
Lemma cut_at_last_underscore (p1 p2 d1 d2 : string) :
  occurs "_" d1 = false -> occurs "_" d2 = false ->
  (p1 ++ "_" ++ d1 = p2 ++ "_" ++ d2)%string ->
  p1 = p2 /\ d1 = d2.
Proof.
  intros H1 H2. revert p2.
  induction p1 as [|c p1 IH]; intros [|c' p2] E; simpl in E.
  - injection E as E. split; [reflexivity | exact E].
  - injection E as Ec E. subst d1.
    rewrite occurs_app in H1. simpl in H1.
    rewrite orb_true_r in H1. discriminate.
  - injection E as Ec E. subst d2.
    rewrite occurs_app in H2. simpl in H2.
    rewrite orb_true_r in H2. discriminate.
  - injection E as Ec E. destruct (IH p2 E) as [-> ->].
    subst c'. split; reflexivity.
Qed.

(** X1. In the local-embedding script two chunks get the same identifier only
    when they are the same chunk of the same file name: identifiers are
    injective over (file name, index) pairs, across documents as well as
    within one. *)
Theorem v2_record_id_injective (f g : string) (i j : nat) :
  IngestV2.record_id f i = IngestV2.record_id g j -> f = g /\ i = j.
Proof.
  unfold IngestV2.record_id. intros E.
  change (f ++ "_chunk_" ++ str_of_nat i)%string
    with (f ++ "_chunk" ++ "_" ++ str_of_nat i)%string in E.
  change (g ++ "_chunk_" ++ str_of_nat j)%string
    with (g ++ "_chunk" ++ "_" ++ str_of_nat j)%string in E.
  rewrite <- (append_assoc f "_chunk"), <- (append_assoc g "_chunk") in E.
  apply cut_at_last_underscore in E
    as [Ep Ed]; try apply str_of_nat_has_no_underscore.
  apply str_of_nat_inj in Ed.
  apply (cut_at_last_underscore f g "chunk" "chunk") in Ep as [Ef _];
    try reflexivity.
  split; assumption.
Qed.

Lemma v2_record_id_injective_witness :
  "paper.pdf"%string = "paper.pdf"%string /\ 7 = 7.
Proof.
  apply (v2_record_id_injective "paper.pdf" "paper.pdf" 7 7). reflexivity.
Defined.

(** X2. In the [$vectorize] script two chunks get the same identifier exactly
    when their indices are equal and their file names agree once every
    [.pdf] is removed. *)
Theorem simple_record_id_collision (f g : string) (i j : nat) :
  IngestSimple.record_id f i = IngestSimple.record_id g j
  <-> replace ".pdf" "" f = replace ".pdf" "" g /\ i = j.
Proof.
  unfold IngestSimple.record_id. split.
  - intros E.
    apply cut_at_last_underscore in E
      as [Ep Ed]; try apply str_of_nat_has_no_underscore.
    apply str_of_nat_inj in Ed. split; assumption.
  - intros [-> ->]. reflexivity.
Qed.

(** A text in which [".pdf"] does not occur is left alone by the scan. *)
Lemma replace_scan_without_pdf (s : string) :
  occurs_in ".pdf" s = false -> replace_scan ".pdf" "" 0 s = s.
Proof.
  induction s as [|c s IH]; intros H.
  - reflexivity.
  - cbn [occurs_in] in H. apply orb_false_iff in H as [H1 H2].
    cbn [replace_scan]. rewrite H1. f_equal. apply IH, H2.
Qed.

(** X3. For a file named [stem.pdf] whose stem holds no [.pdf], the identifier
    of chunk [i] in the [$vectorize] script is [stem_i]. *)
Theorem simple_record_id_of_plain_name (stem : string) (i : nat) :
  occurs_in ".pdf" stem = false ->
  IngestSimple.record_id (stem ++ ".pdf") i
  = (stem ++ "_" ++ str_of_nat i)%string.
Proof.
  intros H. unfold IngestSimple.record_id.
  replace (stem ++ ".pdf")%string with (stem ++ ".pdf" ++ "")%string
    by reflexivity.
  rewrite replace_pdf_app. unfold replace.
  rewrite (replace_scan_without_pdf stem H). simpl.
  rewrite append_assoc. reflexivity.
Qed.

Lemma simple_record_id_of_plain_name_witness :
  IngestSimple.record_id "frailty_index.pdf" 12 = "frailty_index_12"%string.
Proof.
  apply (simple_record_id_of_plain_name "frailty_index" 12). reflexivity.
Defined.

End RecordIdFacts.

(** ** Text extraction *)

Module ExtractFacts.

Import Runtime Collaborators Observations RunFacts IngestSimple.

Lemma length_append (a b : string) :
  String.length (a ++ b) = String.length a + String.length b.
Proof.
  induction a as [|c a IH]; simpl; [reflexivity | now rewrite IH].
Qed.

(** The accumulation over the pages is the pages joined, each followed by
    two newlines. *)
Lemma fold_pages_joined (pages : list string) (text : string) :
  fold_left (fun text page_text => text ++ (page_text ++ nl ++ nl))%string
            pages text
  = (text ++ fold_right String.append ""
               (map (fun page_text => page_text ++ nl ++ nl) pages))%string.
Proof.
  revert text. induction pages as [|p pages IH]; intros text; simpl.
  - clear. induction text as [|c text IH]; simpl; [reflexivity|].
    now rewrite <- IH.
  - rewrite IH. apply PyFacts.append_assoc.
Qed.

Lemma length_joined (pages : list string) :
  String.length
    (fold_right String.append ""
       (map (fun page_text => page_text ++ nl ++ nl)%string pages))
  = list_sum (map String.length pages) + 2 * List.length pages.
Proof.
  induction pages as [|p pages IH]; [reflexivity|].
  cbn [map fold_right list_sum List.length].
  rewrite length_append, IH, length_append.
  change (String.length (nl ++ nl)) with 2. unfold list_sum in *. lia.
Qed.

Section Runs.

Context {Float : Type}.

Lemma extract_pages_lines (total : nat) (pages : list string) :
  forall (start : nat) (text : string) (r : Remote Float) (t : Trace Float),
  exists lines,
    List.length lines = List.length pages
    /\ extract_pages total (PyList.enumerate_from start pages) text r t
       = (Ok (fold_left
                (fun text page_text => text ++ (page_text ++ nl ++ nl))%string
                pages text),
          t ++ map Print lines).
Proof.
  induction pages as [|p pages IH]; intros start text r t.
  - exists []. split; [reflexivity|]. cbn. now rewrite app_nil_r.
  - cbn [PyList.enumerate_from extract_pages fold_left].
    rewrite bind_print.
    destruct (IH (S start) (text ++ (p ++ nl ++ nl))%string r
                 (t ++ [Print ("   Processed page " ++ PyStr.str_of_nat start
                               ++ "/" ++ PyStr.str_of_nat total)]))
      as (lines & L & E).
    eexists (_ :: lines). split; [simpl; now rewrite L|].
    rewrite E, <- app_assoc. reflexivity.
Qed.

(** X4. On a readable PDF [extract_text_from_pdf] returns every page followed
    by two newlines, in page order: its length is the sum of the page
    lengths plus two per page.  It prints one line per page and two more,
    and does nothing else. *)
Theorem extract_text_is_pages_joined (fs : FileSystem) (pdf_path : string)
    (pages : list string) (r : Remote Float) (t : Trace Float) :
  fs pdf_path = Some (Pages pages) ->
  exists text lines,
    extract_text_from_pdf fs pdf_path r t = (Ok text, t ++ map Print lines)
    /\ List.length lines = List.length pages + 2
    /\ text = fold_right String.append ""
                (map (fun page_text => page_text ++ nl ++ nl)%string pages)
    /\ String.length text
       = list_sum (map String.length pages) + 2 * List.length pages.
Proof.
  intros Hfs. unfold extract_text_from_pdf. rewrite bind_print, Hfs.
  match goal with
  | |- context [bind (extract_pages ?n ?ps ?x) _ r ?u] =>
      destruct (extract_pages_lines n pages 1 x r u) as (lines & L & E)
  end.
  rewrite (bind_ok _ _ _ _ _ _ E), bind_print. unfold ret.
  rewrite fold_pages_joined. cbn [String.append].
  eexists. eexists (("[*] Reading PDF: " ++ pdf_path)%string :: lines ++ [_]).
  split; [|split; [|split]].
  - cbn [map]. rewrite map_app, <- !app_assoc. reflexivity.
  - cbn [List.length]. rewrite length_app, L. simpl. lia.
  - reflexivity.
  - apply length_joined.
Qed.

(** A PDF the reader cannot open makes [extract_text_from_pdf] raise the
    reader's exception after its first line of output: no page is
    processed. *)
Lemma extract_text_unreadable (fs : FileSystem) (pdf_path : string)
    (e : Exception) (r : Remote Float) (t : Trace Float) :
  fs pdf_path = Some (Unreadable e) ->
  extract_text_from_pdf fs pdf_path r t
  = (Raise e, t ++ [Print ("[*] Reading PDF: " ++ pdf_path)]).
Proof.
  intros Hfs. unfold extract_text_from_pdf. rewrite bind_print, Hfs.
  reflexivity.
Qed.

End Runs.

Lemma extract_text_is_pages_joined_witness :
  exists text lines,
    extract_text_from_pdf (Float:=Scenarios.Float) Scenarios.fs_example
      "docs/paper.pdf" Scenarios.remote_ok []
    = (Ok text, map Print lines)
    /\ List.length lines = 3
    /\ String.length text = 15.
Proof.
  destruct (extract_text_is_pages_joined (Float:=Scenarios.Float)
              Scenarios.fs_example "docs/paper.pdf" ["ageing clocks"%string]
              Scenarios.remote_ok [] eq_refl)
    as (text & lines & E & L & _ & N).
  exists text, lines. repeat split; assumption.
Defined.

End ExtractFacts.

(** ** Runs of the [$vectorize] script *)

Module SimpleRunFacts.

Import Runtime Collaborators Observations Measures RunFacts SimpleFacts
  IngestSimple.

Section Runs.

Context {Float : Type}.

Local Abbreviation Doc := (Runtime.Doc Float).
Local Abbreviation Trace := (Runtime.Trace Float).
Local Abbreviation Remote := (Runtime.Remote Float).

Lemma sleeps_app (t1 t2 : Trace) : sleeps (t1 ++ t2) = sleeps t1 ++ sleeps t2.
Proof.
  induction t1 as [|e t1 IH]; simpl; [reflexivity|].
  destruct e; simpl; now rewrite IH.
Qed.

Lemma tracebacks_app (t1 t2 : Trace) :
  tracebacks (t1 ++ t2) = tracebacks t1 ++ tracebacks t2.
Proof.
  induction t1 as [|e t1 IH]; simpl; [reflexivity|].
  destruct e; simpl; now rewrite IH.
Qed.

Lemma printed_app (t1 t2 : Trace) :
  printed (t1 ++ t2) = printed t1 ++ printed t2.
Proof.
  induction t1 as [|e t1 IH]; simpl; [reflexivity|].
  destruct e; simpl; now rewrite IH.
Qed.

(** What the insertion loop leaves in the trace, whatever the store
    answers: one [insert_many], one printed line and one half-second sleep
    per start index, and no traceback. *)
Lemma insert_loop_profile (documents : list Doc) (starts : list nat)
    (r : Remote) (t : Trace) :
  exists t',
    for_each starts (insert_batch documents) r t = (Ok tt, t ++ t')
    /\ calls_of t'
       = map (fun i => insert_many
                         (PyList.slice i (i + batch_size) documents)) starts
    /\ submitted t'
       = map (fun i => PyList.slice i (i + batch_size) documents) starts
    /\ sleeps t' = repeat 500 (List.length starts)
    /\ tracebacks t' = []
    /\ List.length (printed t') = List.length starts
    /\ (refuses_every_batch r ->
        Forall (fun line => is_error_line line = true) (printed t'))
    /\ (accepts_every_batch r ->
        Forall (fun line => is_error_line line = false) (printed t')).
Proof.
  revert t. induction starts as [|i starts IH]; intros t.
  - exists []. rewrite app_nil_r. repeat split; constructor.
  - cbn [for_each]. unfold insert_batch at 1.
    rewrite bind_assoc. unfold bind at 1. unfold try_except at 1.
    rewrite bind_sdk.
    set (batch := PyList.slice i (i + batch_size) documents).
    destruct (outcome r (calls_of t) (insert_many batch)) as [e|] eqn:E;
      unfold print at 1, emit at 1; cbv beta iota;
      unfold bind at 1, sleep at 1, emit at 1; cbv beta iota;
      match goal with
      | |- context [for_each starts _ r ?u] =>
          destruct (IH u) as (t' & R & C & B & S & T & P & Hr & Ha)
      end;
      rewrite R; eexists;
      (split; [rewrite <- !app_assoc; reflexivity|]);
      cbn [app calls_of submitted sleeps tracebacks printed map List.length
           repeat];
      rewrite C, B, S, T, P; repeat split.
    + intros H. constructor; [reflexivity | exact (Hr H)].
    + intros H. specialize (H (calls_of t) batch). congruence.
    + intros H. specialize (H (calls_of t) batch). congruence.
    + intros H. constructor; [reflexivity | exact (Ha H)].
Qed.

Lemma filter_all {A : Type} (p : A -> bool) (l : list A) :
  Forall (fun x => p x = true) l -> filter p l = l.
Proof.
  induction 1 as [|x l Hx _ IH]; simpl; [reflexivity|].
  now rewrite Hx, IH.
Qed.

Lemma filter_none {A : Type} (p : A -> bool) (l : list A) :
  Forall (fun x => p x = false) l -> filter p l = [].
Proof.
  induction 1 as [|x l Hx _ IH]; simpl; [reflexivity|].
  now rewrite Hx, IH.
Qed.

(** A run of [ingest_to_astra] with credentials whose three connection
    calls return. *)
Lemma simple_ingest_profile (env : Env) (chunks : list string)
    (collection_name pdf_filename : string) (r : Remote) (t : Trace) :
  let c1 := DataAPIClient (Float:=Float) (ASTRA_DB_APPLICATION_TOKEN env) in
  let c2 := get_database (Float:=Float) (ASTRA_DB_API_ENDPOINT env) in
  let c3 := get_collection (Float:=Float) collection_name in
  let bs := batches (prepare_documents chunks pdf_filename) in
  credentials_missing env = false ->
  returns_all r (calls_of t) [c1; c2; c3] ->
  exists t',
    ingest_to_astra env chunks collection_name pdf_filename r t
    = (Ok tt, t ++ t')
    /\ calls_of t' = [c1; c2; c3] ++ map insert_many bs
    /\ submitted t' = bs
    /\ sleeps t' = repeat 500 (List.length bs)
    /\ tracebacks t' = []
    /\ In success_line (printed t')
    /\ (refuses_every_batch r ->
        List.length (filter is_error_line (printed t')) = List.length bs)
    /\ (accepts_every_batch r -> filter is_error_line (printed t') = []).
Proof.
  intros c1 c2 c3 bs Hcred (H1 & H2 & H3 & _).
  unfold ingest_to_astra. unfold credentials_missing in Hcred.
  rewrite bind_print, Hcred, bind_print, bind_sdk.
  fold c1. rewrite !calls_of_app. cbn [calls_of]. rewrite !app_nil_r, H1.
  rewrite bind_sdk. fold c2. rewrite !calls_of_app. cbn [calls_of].
  rewrite !app_nil_r, H2.
  rewrite bind_print, bind_sdk. fold c3. rewrite !calls_of_app.
  cbn [calls_of]. rewrite !app_nil_r, H3.
  rewrite !bind_print.
  match goal with
  | |- context [bind (insert_documents ?d) _ r ?u] =>
      destruct (insert_loop_profile d
                  (PyList.range_step (List.length d) batch_size) r u)
        as (loop & R & C & B & S & T & P & Hr & Ha);
      rewrite (bind_ok _ _ _ _ _ _ R)
  end.
  rewrite !bind_print. unfold ret.
  eexists. split; [rewrite <- !app_assoc; reflexivity|].
  cbn [app calls_of submitted sleeps tracebacks printed].
  rewrite !calls_of_app, !submitted_app, !sleeps_app, !tracebacks_app,
    !printed_app.
  cbn [app calls_of submitted sleeps tracebacks printed].
  rewrite C, B, S, T, !app_nil_r.
  assert (Lbs : List.length bs
                = List.length (PyList.range_step
                    (List.length (prepare_documents (Float:=Float) chunks
                                    pdf_filename)) batch_size)).
  { unfold bs, batches. now rewrite length_map. }
  repeat split.
  - unfold bs, batches. now rewrite map_map.
  - now rewrite Lbs.
  - do 6 right. apply in_or_app. right. left. reflexivity.
  - intros H. cbn [filter].
    repeat match goal with
           | |- context [is_error_line ?x] =>
               change (is_error_line x) with false
           end.
    rewrite filter_app, (filter_all _ _ (Hr H)). cbn [filter].
    repeat match goal with
           | |- context [is_error_line ?x] =>
               change (is_error_line x) with false
           end.
    rewrite app_nil_r, P. now rewrite Lbs.
  - intros H. cbn [filter].
    repeat match goal with
           | |- context [is_error_line ?x] =>
               change (is_error_line x) with false
           end.
    rewrite filter_app, (filter_none _ _ (Ha H)). cbn [filter].
    repeat match goal with
           | |- context [is_error_line ?x] =>
               change (is_error_line x) with false
           end.
    reflexivity.
Qed.

End Runs.

End SimpleRunFacts.

(** ** Runs of [main] of the [$vectorize] script *)

Module SimpleMainFacts.

Import Runtime Collaborators Observations Measures RunFacts SimpleFacts
  SimpleRunFacts IngestSimple.

Section Runs.

Context {Float : Type}.

Local Abbreviation Trace := (Runtime.Trace Float).
Local Abbreviation Remote := (Runtime.Remote Float).

Lemma calls_of_prints (lines : list string) :
  calls_of (Float:=Float) (map Print lines) = [].
Proof. induction lines; [reflexivity | assumption]. Qed.

Lemma submitted_prints (lines : list string) :
  submitted (Float:=Float) (map Print lines) = [].
Proof. induction lines; [reflexivity | assumption]. Qed.

Lemma tracebacks_prints (lines : list string) :
  tracebacks (Float:=Float) (map Print lines) = [].
Proof. induction lines; [reflexivity | assumption]. Qed.

Lemma printed_prints (lines : list string) :
  printed (Float:=Float) (map Print lines) = lines.
Proof. induction lines; [reflexivity | simpl; now f_equal]. Qed.

(** When [ingest_to_astra] raises, it has submitted nothing and printed no
    traceback, wherever in a run it was called. *)
Lemma simple_ingest_raises_early (env : Env) (chunks : list string)
    (collection_name pdf_filename : string) (r : Remote) (t u : Trace)
    (e : Exception) :
  ingest_to_astra env chunks collection_name pdf_filename r t = (Raise e, u) ->
  submitted u = submitted t /\ tracebacks u = tracebacks t
  /\ (credentials_missing env = true -> calls_of u = calls_of t).
Proof.
  unfold ingest_to_astra, credentials_missing. rewrite bind_print.
  destruct (not_ (ASTRA_DB_API_ENDPOINT env)
            || not_ (ASTRA_DB_APPLICATION_TOKEN env)).
  { unfold raise. intros H. injection H as _ <-.
    rewrite submitted_app, tracebacks_app, calls_of_app. cbn.
    rewrite !app_nil_r. repeat split. }
  rewrite bind_print, bind_sdk.
  destruct (outcome r _ _).
  { intros H. injection H as _ <-.
    rewrite !submitted_app, !tracebacks_app. cbn. rewrite !app_nil_r.
    repeat split. discriminate. }
  rewrite bind_sdk. destruct (outcome r _ _).
  { intros H. injection H as _ <-.
    rewrite !submitted_app, !tracebacks_app. cbn. rewrite !app_nil_r.
    repeat split. discriminate. }
  rewrite bind_print, bind_sdk. destruct (outcome r _ _).
  { intros H. injection H as _ <-.
    rewrite !submitted_app, !tracebacks_app. cbn. rewrite !app_nil_r.
    repeat split. discriminate. }
  rewrite !bind_print.
  match goal with
  | |- bind (insert_documents ?d) _ _ ?t0 = _ -> _ =>
      destruct (insert_documents_run d r t0) as (t1 & E1 & S1);
      rewrite (bind_ok _ _ _ _ _ _ E1)
  end.
  rewrite !bind_print. discriminate.
Qed.

(** When [ingest_to_astra] returns, the credentials were set, the three
    connection calls returned and no traceback was printed. *)
Lemma simple_ingest_returns (env : Env) (chunks : list string)
    (collection_name pdf_filename : string) (r : Remote) (t u : Trace) :
  ingest_to_astra env chunks collection_name pdf_filename r t = (Ok tt, u) ->
  credentials_missing env = false
  /\ returns_all r (calls_of t)
       [ DataAPIClient (ASTRA_DB_APPLICATION_TOKEN env);
         get_database (ASTRA_DB_API_ENDPOINT env);
         get_collection collection_name ].
Proof.
  unfold ingest_to_astra, credentials_missing. rewrite bind_print.
  destruct (not_ (ASTRA_DB_API_ENDPOINT env)
            || not_ (ASTRA_DB_APPLICATION_TOKEN env)); [discriminate|].
  rewrite bind_print, bind_sdk. rewrite !calls_of_app. cbn [calls_of].
  rewrite !app_nil_r.
  match goal with
  | |- context [match outcome r ?h ?c with _ => _ end] =>
      destruct (outcome r h c) eqn:E1; [discriminate|]
  end.
  rewrite bind_sdk. rewrite !calls_of_app. cbn [calls_of].
  rewrite !app_nil_r.
  match goal with
  | |- context [match outcome r ?h ?c with _ => _ end] =>
      destruct (outcome r h c) eqn:E2; [discriminate|]
  end.
  rewrite bind_print, bind_sdk. rewrite !calls_of_app. cbn [calls_of].
  rewrite !app_nil_r.
  match goal with
  | |- context [match outcome r ?h ?c with _ => _ end] =>
      destruct (outcome r h c) eqn:E3; [discriminate|]
  end.
  intros _. cbn [returns_all]. repeat split; assumption.
Qed.

(** A text with a character that is not whitespace does not strip to the
    empty string. *)
Lemma strip_not_blank (s : string) :
  PyStr.all_chars PyStr.isspace s = false ->
  PyStr.truthy (PyStr.strip s) = true.
Proof.
  unfold PyStr.strip. induction s as [|c s IH]; simpl; intros H.
  - discriminate.
  - destruct (PyStr.isspace c) eqn:Hc; simpl in H.
    + apply IH, H.
    + simpl. destruct (PyStr.rstrip s); [rewrite Hc|]; reflexivity.
Qed.

(** [main_steps] prints no traceback, and when it raises it has submitted
    nothing. *)
Lemma main_steps_trace (split_text : RecursiveCharacterTextSplitter -> string
                                      -> Result (list string))
    (fs : FileSystem) (env : Env) (args : Args) (pdf_filename : string)
    (r : Remote) (t u : Trace) (res : Result unit) :
  main_steps split_text fs env args pdf_filename r t = (res, u) ->
  tracebacks u = tracebacks t
  /\ (forall e, res = Raise e -> submitted u = submitted t).
Proof.
  unfold main_steps.
  destruct (fs (pdf_path args)) as [[pages | e0] |] eqn:Hfs.
  - destruct (PipelineClaims.extract_text_run (Float:=Float) fs
                (pdf_path args) pages Hfs) as (lines & E).
    rewrite (bind_ok _ _ _ _ _ _ (E r t)).
    destruct (negb (PyStr.truthy (PyStr.strip (text_of_pages pages)))).
    { unfold print, emit. intros H. injection H as <- <-.
      rewrite !tracebacks_app, tracebacks_prints. cbn.
      rewrite !app_nil_r. split; [reflexivity | discriminate]. }
    unfold chunk_text. rewrite bind_assoc, bind_print.
    destruct (split_text _ (text_of_pages pages)) as [chunks | e1].
    2: { unfold bind, raise. intros H. injection H as <- <-.
         rewrite !tracebacks_app, !submitted_app, tracebacks_prints,
           submitted_prints. cbn. rewrite !app_nil_r. split; reflexivity. }
    rewrite bind_assoc, bind_print, bind_ret.
    match goal with
    | |- bind ?m _ r ?v = _ -> _ =>
        destruct (m r v) as [[[] | e1] u1] eqn:I;
          [rewrite (bind_ok _ _ _ _ _ _ I)
          |rewrite (bind_raise _ _ _ _ _ _ I)]
    end.
    + rewrite !bind_print. unfold print, emit. intros H.
      injection H as <- <-. split; [|discriminate].
      pose proof (simple_ingest_returns _ _ _ _ _ _ _ I) as [Hc Hr].
      destruct (simple_ingest_profile _ chunks (collection args) pdf_filename
                  r _ Hc Hr) as (t' & E' & _ & _ & _ & T & _).
      rewrite E' in I. injection I as <-.
      rewrite !tracebacks_app, T, tracebacks_prints. cbn.
      rewrite !app_nil_r. reflexivity.
    + intros H. injection H as <- <-.
      apply simple_ingest_raises_early in I as (S & T & _).
      rewrite S, T, !tracebacks_app, !submitted_app, tracebacks_prints,
        submitted_prints. cbn. rewrite !app_nil_r. split; reflexivity.
  - rewrite (bind_raise _ _ _ _ _ _
               (ExtractFacts.extract_text_unreadable fs _ e0 r t Hfs)).
    intros H. injection H as <- <-.
    rewrite tracebacks_app, submitted_app. cbn. rewrite !app_nil_r.
    split; reflexivity.
  - unfold extract_text_from_pdf. rewrite bind_assoc, bind_print, Hfs.
    unfold bind, raise. intros H. injection H as <- <-.
    rewrite tracebacks_app, submitted_app. cbn. rewrite !app_nil_r.
    split; reflexivity.
Qed.

End Runs.

End SimpleMainFacts.

(** ** What a run of the [$vectorize] ingestion does *)

Module SimpleRunProps.

Import Runtime Collaborators Observations Measures RunFacts SimpleFacts
  SimpleRunFacts IngestSimple Scenarios.

(** X5. [ingest_to_astra] of the [$vectorize] script returns exactly when both
    credentials are set and its three connection calls return: what the
    store answers to the batches plays no part.  When it raises, no batch
    has been submitted and the run has not slept. *)
Theorem simple_ingest_outcome {Float : Type} (env : Env)
    (chunks : list string) (collection_name pdf_filename : string)
    (r : Remote Float) :
  let run :=
    ingest_to_astra env chunks collection_name pdf_filename r [] in
  let connection :=
    [ DataAPIClient (ASTRA_DB_APPLICATION_TOKEN env);
      get_database (ASTRA_DB_API_ENDPOINT env);
      get_collection collection_name ] in
  (fst run = Ok tt
   <-> credentials_missing env = false /\ returns_all r [] connection)
  /\ (forall e, fst run = Raise e ->
      submitted (snd run) = [] /\ sleeps (snd run) = []).
Proof.
  intros run connection. unfold run, connection.
  destruct (credentials_missing env) eqn:Hc.
  { destruct (IngestFacts.simple_ingest_without_credentials env chunks
                collection_name pdf_filename r [] Hc) as (line & E).
    rewrite E. split; [split; [discriminate | intros [H _]; discriminate]|].
    intros e _. split; reflexivity. }
  set (c1 := DataAPIClient (ASTRA_DB_APPLICATION_TOKEN env)).
  set (c2 := get_database (ASTRA_DB_API_ENDPOINT env)).
  set (c3 := get_collection collection_name).
  destruct (outcome r [] c1) as [e1|] eqn:E1;
    [|destruct (outcome r [c1] c2) as [e2|] eqn:E2;
      [|destruct (outcome r [c1; c2] c3) as [e3|] eqn:E3]].
  4: { destruct (simple_ingest_profile env chunks collection_name
                   pdf_filename r [] Hc) as (t' & E & _).
       { cbn. fold c1 c2 c3. repeat split; assumption. }
       rewrite E. split; [|discriminate].
       split; [intros _|reflexivity].
       split; [reflexivity|]. cbn. fold c1 c2 c3. repeat split; assumption. }
  all: unfold ingest_to_astra; unfold credentials_missing in Hc;
    rewrite bind_print, Hc, bind_print, bind_sdk; fold c1;
    cbn [calls_of app]; rewrite E1;
    try (rewrite bind_sdk; fold c2; cbn [calls_of app]; rewrite E2);
    try (rewrite bind_print, bind_sdk; fold c3; cbn [calls_of app];
         rewrite E3);
    (split; [split; [discriminate|] | intros e _; split; reflexivity]).
  - intros [_ (H & _)]. cbn in H. fold c1 in H. congruence.
  - intros [_ (_ & H & _)]. cbn in H. fold c1 c2 in H. congruence.
  - intros [_ (_ & _ & H & _)]. cbn in H. fold c1 c2 c3 in H. congruence.
Qed.

Lemma map_snd_enumerate_from {A : Type} (start : nat) (xs : list A) :
  map snd (PyList.enumerate_from start xs) = xs.
Proof.
  revert start. induction xs as [|x xs IH]; intros start; simpl.
  - reflexivity.
  - now rewrite IH.
Qed.

(** X6. The documents a returning run has submitted, taken batch after batch,
    carry the chunks in their order in [$vectorize], the positions
    [0 .. n - 1] in [chunk_id], and in every document the chunk count [n]
    and the file name: each chunk is sent exactly once, also when batches
    are refused. *)
Theorem submitted_documents_carry_chunks {Float : Type} (env : Env)
    (chunks : list string) (collection_name pdf_filename : string)
    (r : Remote Float) (t : Trace Float) :
  ingest_to_astra env chunks collection_name pdf_filename r [] = (Ok tt, t) ->
  let documents := List.concat (submitted t) in
  let n := List.length chunks in
  map (get "$vectorize") documents = map (fun c => Some (VStr c)) chunks
  /\ map (get "chunk_id") documents
     = map (fun i => Some (VInt (Z.of_nat i))) (seq 0 n)
  /\ map (get "total_chunks") documents
     = repeat (Some (VInt (Z.of_nat n))) n
  /\ map (get "source") documents = repeat (Some (VStr pdf_filename)) n.
Proof.
  intros H documents n.
  apply IngestFacts.simple_ingest_submits_all in H as [_ S].
  unfold documents. rewrite S. cbn [submitted app].
  rewrite concat_batches. unfold prepare_documents, PyList.enumerate.
  rewrite !map_map. cbn [make_doc get String.eqb Ascii.eqb Bool.eqb fst snd].
  repeat split.
  - rewrite <- (map_snd_enumerate_from 0 chunks) at 2.
    rewrite map_map. reflexivity.
  - unfold n. rewrite <- (map_fst_enumerate_from 0 chunks), map_map.
    reflexivity.
  - rewrite map_const. unfold n. f_equal.
    rewrite <- (length_map fst), map_fst_enumerate_from. apply length_seq.
  - rewrite map_const. unfold n. f_equal.
    rewrite <- (length_map fst), map_fst_enumerate_from. apply length_seq.
Qed.

Lemma submitted_documents_carry_chunks_witness :
  exists t : Trace Scenarios.Float,
    map (get "$vectorize") (List.concat (submitted t))
    = map (fun c => Some (VStr c)) chunks45.
Proof.
  eexists.
  exact (proj1 (submitted_documents_carry_chunks env_ok chunks45
                  "pdf_documents" "paper.pdf" remote_second_batch_fails _
                  eq_refl)).
Defined.

(** X7. A returning run sleeps half a second once per batch, [ceil(n / 20)]
    times for [n] chunks, whatever the store answered, prints no traceback
    and ends its report with the success line.  If the store refused every
    batch the run still returns and prints that line, after one error line
    per batch; if it accepted every batch no error line is printed. *)
Theorem simple_ingest_report {Float : Type} (env : Env)
    (chunks : list string) (collection_name pdf_filename : string)
    (r : Remote Float) (t : Trace Float) :
  ingest_to_astra env chunks collection_name pdf_filename r [] = (Ok tt, t) ->
  let m := (List.length chunks + 19) / 20 in
  sleeps t = repeat 500 m
  /\ tracebacks t = []
  /\ In success_line (printed t)
  /\ (refuses_every_batch r ->
      List.length (filter is_error_line (printed t)) = m)
  /\ (accepts_every_batch r -> filter is_error_line (printed t) = []).
Proof.
  intros H m.
  pose proof (SimpleMainFacts.simple_ingest_returns _ _ _ _ _ _ _ H)
    as [Hc Hr].
  destruct (simple_ingest_profile env chunks collection_name pdf_filename
              r [] Hc Hr) as (t' & E & _ & _ & S & T & I & Hall & Hnone).
  rewrite E in H. injection H as <-. cbn [app].
  assert (L : List.length
                (batches (prepare_documents (Float:=Float) chunks
                            pdf_filename)) = m).
  { unfold batches, PyList.range_step. rewrite !length_map, length_seq.
    unfold prepare_documents, PyList.enumerate. rewrite length_map.
    rewrite <- (length_map fst), map_fst_enumerate_from, length_seq.
    unfold m, batch_size. f_equal. lia. }
  rewrite L in *. repeat split; assumption.
Qed.

Lemma simple_ingest_report_witness :
  exists t : Trace Scenarios.Float,
    sleeps t = repeat 500 3 /\ In success_line (printed t).
Proof.
  eexists.
  destruct (simple_ingest_report env_ok chunks45 "pdf_documents" "paper.pdf"
              remote_second_batch_fails _ eq_refl) as (S & _ & I & _).
  split; [exact S | exact I].
Defined.

End SimpleRunProps.

(** ** What a run of [main] of the [$vectorize] script does *)

Module SimpleMainProps.

Import Runtime Collaborators Observations Measures RunFacts SimpleFacts
  SimpleRunFacts SimpleMainFacts IngestSimple Scenarios.

(** Search for a line in a list built from conses and appends. *)
Ltac find_line :=
  first [ left; reflexivity
        | right; find_line
        | apply in_or_app; right; find_line
        | apply in_or_app; left; find_line ].

(** X8. [main] never raises.  Either it prints no traceback, or it prints
    exactly one, for an exception [e], together with the line
    [Error during ingestion: e], and in that case no batch was submitted
    to the store: an ingestion that is reported as failed has stored
    nothing. *)
Theorem main_never_raises {Float : Type}
    (split_text : RecursiveCharacterTextSplitter -> string
                  -> Result (list string))
    (fs : FileSystem) (env : Env) (args : Args) (r : Remote Float) :
  exists t,
    main split_text fs env args r [] = (Ok tt, t)
    /\ (tracebacks t = []
        \/ exists e,
             tracebacks t = [e] /\ submitted t = []
             /\ In (nl ++ "[-] Error during ingestion: "
                    ++ str_of_exception e)%string (printed t)).
Proof.
  unfold main. destruct (fs (pdf_path args)) as [file|].
  2: { eexists. split; [reflexivity|]. left. reflexivity. }
  rewrite !bind_print. cbn [app]. unfold try_except.
  match goal with
  | |- context [main_steps ?s ?f ?e ?a ?n r ?b] =>
      destruct (main_steps s f e a n r b) as [[[] | e1] u] eqn:S;
        apply main_steps_trace in S as [T Sub]
  end.
  - eexists. split; [reflexivity|]. left. exact T.
  - specialize (Sub e1 eq_refl). cbn in T, Sub.
    rewrite bind_print. unfold emit.
    eexists. split; [reflexivity|]. right. exists e1.
    rewrite !tracebacks_app, !submitted_app, !printed_app, T, Sub.
    repeat split. apply in_or_app. left. apply in_or_app. right.
    left. reflexivity.
Qed.

(** X9. The whole pipeline on a readable PDF whose text is not blank, with both
    credentials set and a store whose three connection calls return:
    [main] returns, having made the connection calls and then one
    [insert_many] per batch of the documents prepared from the splitter's
    chunks under the base name of the path, with a half-second sleep after
    each; it prints the completion line and no traceback. *)
Theorem main_end_to_end {Float : Type}
    (split_text : RecursiveCharacterTextSplitter -> string
                  -> Result (list string))
    (fs : FileSystem) (env : Env) (args : Args) (r : Remote Float)
    (pages : list string) (chunks : list string) :
  let text := text_of_pages pages in
  let connection :=
    [ DataAPIClient (ASTRA_DB_APPLICATION_TOKEN env);
      get_database (ASTRA_DB_API_ENDPOINT env);
      get_collection (collection args) ] in
  let bs :=
    batches (prepare_documents (Float:=Float) chunks
               (basename (pdf_path args))) in
  fs (pdf_path args) = Some (Pages pages) ->
  PyStr.all_chars PyStr.isspace text = false ->
  split_text
    {| Collaborators.chunk_size := arg_chunk_size args;
       Collaborators.chunk_overlap := arg_chunk_overlap args;
       separators := [(nl ++ nl)%string; nl; " "%string; ""%string] |}
    text = Ok chunks ->
  credentials_missing env = false ->
  returns_all r [] connection ->
  exists t,
    main split_text fs env args r [] = (Ok tt, t)
    /\ calls_of t = connection ++ map insert_many bs
    /\ submitted t = bs
    /\ sleeps t = repeat 500 (List.length bs)
    /\ tracebacks t = []
    /\ In "[+] INGESTION COMPLETE!"%string (printed t).
Proof.
  intros text connection bs Hfs Hblank Hsplit Hc Hr.
  unfold main. rewrite Hfs, !bind_print. cbn [app].
  unfold try_except, main_steps.
  destruct (PipelineClaims.extract_text_run (Float:=Float) fs
              (pdf_path args) pages Hfs) as (lines & E).
  rewrite (bind_ok _ _ _ _ _ _ (E r _)). fold text.
  rewrite (strip_not_blank text Hblank). cbn [negb].
  unfold chunk_text. rewrite bind_assoc, bind_print, Hsplit.
  rewrite bind_assoc, bind_print, bind_ret.
  match goal with
  | |- context [bind (ingest_to_astra ?e ?c ?n ?f) _ r ?v] =>
      destruct (simple_ingest_profile e c n f r v Hc)
        as (t' & I & C & S & Z & T & _)
  end.
  { rewrite !calls_of_app, calls_of_prints. exact Hr. }
  rewrite (bind_ok _ _ _ _ _ _ I), !bind_print. unfold print, emit.
  eexists. split; [reflexivity|].
  rewrite !calls_of_app, !submitted_app, !sleeps_app, !tracebacks_app,
    !printed_app, C, S, Z, T, calls_of_prints, submitted_prints,
    tracebacks_prints.
  assert (Zl : sleeps (Float:=Float) (map Print lines) = []).
  { clear. induction lines; [reflexivity | assumption]. }
  rewrite Zl. cbn [calls_of submitted sleeps tracebacks printed app].
  rewrite !app_nil_r. repeat split. find_line.
Qed.

Lemma main_end_to_end_witness :
  exists t : Trace Scenarios.Float,
    main split_text_words fs_example env_ok args_paper remote_ok []
    = (Ok tt, t)
    /\ List.length (List.concat (submitted t)) = 2.
Proof.
  destruct (main_end_to_end (Float:=Scenarios.Float) split_text_words
              fs_example env_ok args_paper remote_ok
              ["ageing clocks"%string] _ eq_refl eq_refl eq_refl eq_refl)
    as (t & E & _ & S & _).
  - cbn. repeat split.
  - exists t. split; [exact E|]. rewrite S. reflexivity.
Defined.

(** X10. The credentials are checked only inside [ingest_to_astra]: when one is
    missing, [main] still reads the PDF and chunks its text, then reports
    the [ValueError] with its traceback and returns, without a single call
    to the store SDK. *)
Theorem main_without_credentials {Float : Type}
    (split_text : RecursiveCharacterTextSplitter -> string
                  -> Result (list string))
    (fs : FileSystem) (env : Env) (args : Args) (r : Remote Float)
    (pages : list string) (chunks : list string) :
  let text := text_of_pages pages in
  fs (pdf_path args) = Some (Pages pages) ->
  PyStr.all_chars PyStr.isspace text = false ->
  split_text
    {| Collaborators.chunk_size := arg_chunk_size args;
       Collaborators.chunk_overlap := arg_chunk_overlap args;
       separators := [(nl ++ nl)%string; nl; " "%string; ""%string] |}
    text = Ok chunks ->
  credentials_missing env = true ->
  exists t,
    main split_text fs env args r [] = (Ok tt, t)
    /\ calls_of t = []
    /\ tracebacks t
       = [ValueError "Missing Astra DB credentials. Check your .env file."]
    /\ In ("[+] Created " ++ PyStr.str_of_nat (List.length chunks)
           ++ " chunks")%string (printed t).
Proof.
  intros text Hfs Hblank Hsplit Hc.
  unfold main. rewrite Hfs, !bind_print. cbn [app].
  unfold try_except, main_steps.
  destruct (PipelineClaims.extract_text_run (Float:=Float) fs
              (pdf_path args) pages Hfs) as (lines & E).
  rewrite (bind_ok _ _ _ _ _ _ (E r _)). fold text.
  rewrite (strip_not_blank text Hblank). cbn [negb].
  unfold chunk_text. rewrite bind_assoc, bind_print, Hsplit.
  rewrite bind_assoc, bind_print, bind_ret.
  match goal with
  | |- context [bind (ingest_to_astra ?e ?c ?n ?f) _ r ?v] =>
      destruct (IngestFacts.simple_ingest_without_credentials e c n f r v Hc)
        as (line & I)
  end.
  rewrite (bind_raise _ _ _ _ _ _ I), bind_print. unfold emit.
  eexists. split; [reflexivity|].
  rewrite !calls_of_app, !tracebacks_app, !printed_app, calls_of_prints,
    tracebacks_prints.
  cbn [calls_of tracebacks printed app]. repeat split. find_line.
Qed.

Lemma main_without_credentials_witness :
  exists t : Trace Scenarios.Float,
    main split_text_words fs_example env_no_token args_paper remote_ok []
    = (Ok tt, t)
    /\ calls_of t = [].
Proof.
  destruct (main_without_credentials (Float:=Scenarios.Float)
              split_text_words fs_example env_no_token args_paper remote_ok
              ["ageing clocks"%string] _ eq_refl eq_refl eq_refl eq_refl)
    as (t & E & C & _).
  exists t. split; assumption.
Defined.

End SimpleMainProps.

(** ** Runs of the local-embedding script *)

Module V2Facts.

Import Runtime Collaborators Observations Measures RunFacts SimpleFacts
  SimpleRunFacts.

(** Below [n] there are [ceil(n / 10)] multiples of ten. *)
Lemma multiples_of_ten (n : nat) :
  List.length (filter (fun i => (i mod 10 =? 0)%nat) (seq 0 n)) = (n + 9) / 10.
Proof.
  induction n as [|n IH]; [reflexivity|].
  rewrite seq_S, filter_app, length_app, IH, Nat.add_0_l. cbn [filter].
  pose proof (Nat.div_mod_eq n 10) as Dn.
  pose proof (Nat.mod_upper_bound n 10 ltac:(lia)) as Un.
  pose proof (Nat.div_mod_eq (n + 9) 10) as D9.
  pose proof (Nat.mod_upper_bound (n + 9) 10 ltac:(lia)) as U9.
  pose proof (Nat.div_mod_eq (S n + 9) 10) as D10.
  pose proof (Nat.mod_upper_bound (S n + 9) 10 ltac:(lia)) as U10.
  destruct (Nat.eqb_spec (n mod 10) 0) as [Z | NZ]; cbn [List.length]; lia.
Qed.

Section Runs.

Context {Float : Type}.

Variable embed_query : string -> list Float.

Local Abbreviation Doc := (Runtime.Doc Float).
Local Abbreviation Trace := (Runtime.Trace Float).
Local Abbreviation Remote := (Runtime.Remote Float).

Lemma prepare_documents_run (pdf_filename : string) (total : nat)
    (ichunks : list (nat * string)) :
  forall (documents : list Doc) (r : Remote) (t : Trace),
    IngestV2.prepare_documents embed_query pdf_filename total ichunks
      documents r t
    = (Ok (documents
           ++ map (fun ic => IngestV2.make_doc embed_query pdf_filename total
                               (fst ic) (snd ic)) ichunks),
       t ++ map Print
              (map (progress_line total)
                   (filter (fun i => (i mod 10 =? 0)%nat) (map fst ichunks)))).
Proof.
  induction ichunks as [|[i chunk] rest IH]; intros documents r t.
  - cbn. now rewrite !app_nil_r.
  - cbn [IngestV2.prepare_documents map filter fst snd].
    destruct (i mod 10 =? 0)%nat.
    + rewrite bind_print, IH, <- !app_assoc. reflexivity.
    + rewrite bind_ret, IH, <- !app_assoc. reflexivity.
Qed.

(** The insertion loop of the local-embedding script hands the slices to
    the store in order and stops at the first one the store refuses. *)
Lemma v2_insert_loop_profile (documents : list Doc) (starts : list nat)
    (r : Remote) (t : Trace) :
  exists k t' res,
    for_each starts (IngestV2.insert_batch documents) r t = (res, t ++ t')
    /\ k <= List.length starts
    /\ submitted t'
       = map (fun i => PyList.slice i (i + IngestV2.batch_size) documents)
             (firstn k starts)
    /\ calls_of t' = map insert_many (submitted t')
    /\ tracebacks t' = []
    /\ (res = Ok tt -> k = List.length starts /\ sleeps t' = repeat 100 k)
    /\ (forall e, res = Raise e ->
        0 < k /\ sleeps t' = repeat 100 (k - 1)).
Proof.
  revert t. induction starts as [|i starts IH]; intros t.
  - exists 0, [], (Ok tt). rewrite app_nil_r.
    repeat split; try reflexivity; discriminate.
  - cbn [for_each]. unfold IngestV2.insert_batch at 1.
    rewrite bind_assoc, bind_sdk.
    set (batch := PyList.slice i (i + IngestV2.batch_size) documents).
    destruct (outcome r (calls_of t) (insert_many batch)) as [e|].
    + exists 1, [Sdk (insert_many batch)], (Raise e).
      repeat split; try reflexivity; try discriminate; simpl; lia.
    + rewrite bind_assoc, bind_print. unfold bind at 1, sleep at 1, emit at 1.
      match goal with
      | |- context [for_each starts _ r ?u] =>
          destruct (IH u)
            as (k & t' & res & R & K & Sb & C & T & Hok & Hraise)
      end.
      rewrite R. exists (S k). eexists. exists res.
      split; [rewrite <- !app_assoc; reflexivity|].
      cbn [app calls_of submitted sleeps tracebacks firstn map List.length].
      rewrite C, T, Sb. repeat split; try lia.
      * destruct (Hok H) as [-> _]. reflexivity.
      * destruct (Hok H) as [_ ->]. reflexivity.
      * destruct (Hraise e H) as [Hk ->]. destruct k; [lia|].
        cbn [Nat.sub repeat]. now rewrite Nat.sub_0_r.
Qed.

End Runs.

(** X11. The local-embedding script builds one document per chunk, in order:
    chunk [i] gets the identifier [record_id] at [i], its text and its
    embedding.  It prints one progress line for every tenth chunk,
    [ceil(n / 10)] lines for [n] chunks, and makes no SDK call. *)
Theorem v2_prepared_documents {Float : Type}
    (embed_query : string -> list Float) (pdf_filename : string)
    (chunks : list string) (r : Remote Float) (t : Trace Float) :
  let n := List.length chunks in
  exists documents lines,
    IngestV2.prepare_documents embed_query pdf_filename n
      (PyList.enumerate chunks) [] r t
    = (Ok documents, t ++ map Print lines)
    /\ map (get "_id") documents
       = map (fun i => Some (VStr (IngestV2.record_id pdf_filename i)))
             (seq 0 n)
    /\ map (get "text") documents = map (fun c => Some (VStr c)) chunks
    /\ map (get "$vector") documents
       = map (fun c => Some (VList (map VFloat (embed_query c)))) chunks
    /\ lines = map (progress_line n)
                   (filter (fun i => (i mod 10 =? 0)%nat) (seq 0 n))
    /\ List.length lines = (n + 9) / 10.
Proof.
  intros n. eexists. eexists.
  rewrite prepare_documents_run. cbn [app]. unfold PyList.enumerate.
  rewrite map_fst_enumerate_from. fold n.
  split; [reflexivity|].
  rewrite !map_map.
  cbn [IngestV2.make_doc get String.eqb Ascii.eqb Bool.eqb fst snd].
  repeat split.
  - unfold n. rewrite <- (map_fst_enumerate_from 0 chunks), map_map.
    reflexivity.
  - rewrite <- (SimpleRunProps.map_snd_enumerate_from 0 chunks) at 2.
    rewrite map_map. reflexivity.
  - rewrite <- (SimpleRunProps.map_snd_enumerate_from 0 chunks) at 2.
    rewrite map_map. reflexivity.
  - rewrite length_map. apply multiples_of_ten.
Qed.

(** X12. Whatever the store answers, the batches the local-embedding loop has
    handed to it are the first [k] batches of the documents, in order.  If
    the loop returns they are all the batches, so every document was sent
    once; if it raises, the refused batch was the last one handed over and
    the loop slept only after the [k - 1] batches before it. *)
Theorem v2_submits_a_prefix {Float : Type} (documents : list (Doc Float))
    (r : Remote Float) (t : Trace Float) :
  let bs := IngestSimple.batches documents in
  exists k t' res,
    IngestV2.insert_documents documents r t = (res, t ++ t')
    /\ k <= List.length bs
    /\ submitted t' = firstn k bs
    /\ (res = Ok tt ->
        submitted t' = bs /\ List.concat (submitted t') = documents
        /\ sleeps t' = repeat 100 (List.length bs))
    /\ (forall e, res = Raise e ->
        0 < k /\ sleeps t' = repeat 100 (k - 1)).
Proof.
  intros bs.
  destruct (v2_insert_loop_profile documents
              (PyList.range_step (List.length documents) IngestV2.batch_size)
              r t) as (k & t' & res & R & K & S & _ & _ & Hok & Hraise).
  exists k, t', res. unfold IngestV2.insert_documents.
  assert (L : List.length bs
              = List.length (PyList.range_step (List.length documents)
                               IngestV2.batch_size)).
  { unfold bs, IngestSimple.batches. now rewrite length_map. }
  split; [exact R|]. split; [now rewrite L|].
  assert (S' : submitted t' = firstn k bs).
  { rewrite S. unfold bs, IngestSimple.batches. now rewrite firstn_map. }
  split; [exact S'|]. split; [|exact Hraise].
  intros H. destruct (Hok H) as [Hk Hs].
  assert (B : submitted t' = bs).
  { rewrite S', Hk, <- L. apply firstn_all. }
  rewrite B, Hs, Hk, L. repeat split. apply concat_batches.
Qed.

(** The documents the local-embedding script prepares for its chunks. *)
Lemma v2_documents_eq {Float : Type} (embed_query : string -> list Float)
    (pdf_filename : string) (chunks : list string) (r : Remote Float)
    (t : Trace Float) :
  exists lines,
    IngestV2.prepare_documents embed_query pdf_filename (List.length chunks)
      (PyList.enumerate chunks) [] r t
    = (Ok (map (fun ic => IngestV2.make_doc embed_query pdf_filename
                            (List.length chunks) (fst ic) (snd ic))
               (PyList.enumerate chunks)),
       t ++ map Print lines).
Proof.
  eexists. rewrite prepare_documents_run. reflexivity.
Qed.

(** What [ingest_to_astra] of the local-embedding script does once it
    holds a collection, from the trace [u] on. *)
Ltac v2_after_collection embed_query pdf_filename chunks r :=
  rewrite ?bind_print;
  match goal with
  | |- context [bind (IngestV2.prepare_documents _ _ _ _ _) _ r ?u] =>
      destruct (v2_documents_eq embed_query pdf_filename chunks r u)
        as (lines & P);
      rewrite (bind_ok _ _ _ _ _ _ P); clear P
  end;
  rewrite bind_print;
  match goal with
  | |- context [bind (IngestV2.insert_documents ?d) _ r ?u] =>
      destruct (v2_insert_loop_profile d
                  (PyList.range_step (List.length d) IngestV2.batch_size)
                  r u)
        as (k & t' & res & R & K & Sb & C & T & Hok & Hraise);
      fold (IngestV2.insert_documents d) in R;
      destruct res as [[] | e'];
      [rewrite (bind_ok _ _ _ _ _ _ R), !bind_print; unfold ret
      |rewrite (bind_raise _ _ _ _ _ _ R)]
  end;
  idtac.

(** X13. [ingest_to_astra] of the local-embedding script first tries to create
    the collection and asks for the existing one only when that raises: a
    run never makes both calls successfully, and when both raise the
    second exception leaves the function before any document is
    submitted.  After the collection calls the only SDK calls are the
    [insert_many] of the submitted batches, which are the first batches of
    the prepared documents, all of them when the function returns.  No
    traceback is printed. *)
Theorem v2_collection_fallback {Float : Type}
    (embed_query : string -> list Float) (env : Env) (chunks : list string)
    (collection_name pdf_filename : string) (r : Remote Float) :
  let run :=
    IngestV2.ingest_to_astra embed_query env chunks collection_name
      pdf_filename r [] in
  let c1 := DataAPIClient (Float:=Float) (ASTRA_DB_APPLICATION_TOKEN env) in
  let c2 := get_database (Float:=Float) (ASTRA_DB_API_ENDPOINT env) in
  let create := create_collection (Float:=Float) collection_name in
  let get := get_collection (Float:=Float) collection_name in
  let bs :=
    IngestSimple.batches
      (map (fun ic => IngestV2.make_doc embed_query pdf_filename
                        (List.length chunks) (fst ic) (snd ic))
           (PyList.enumerate chunks)) in
  credentials_missing env = false ->
  returns_all r [] [c1; c2] ->
  tracebacks (snd run) = []
  /\ (exists k, submitted (snd run) = firstn k bs)
  /\ (fst run = Ok tt -> submitted (snd run) = bs)
  /\ (outcome r [c1; c2] create = None ->
      calls_of (snd run)
      = [c1; c2; create] ++ map insert_many (submitted (snd run)))
  /\ (forall e, outcome r [c1; c2] create = Some e ->
      calls_of (snd run)
      = [c1; c2; create; get] ++ map insert_many (submitted (snd run))
      /\ (forall e2, outcome r [c1; c2; create] get = Some e2 ->
          fst run = Raise e2 /\ submitted (snd run) = [])).
Proof.
  intros run c1 c2 create get bs Hc (H1 & H2 & _).
  enough (exists res t,
            run = (res, t)
            /\ tracebacks t = []
            /\ (exists k, submitted t = firstn k bs)
            /\ (res = Ok tt -> submitted t = bs)
            /\ (outcome r [c1; c2] create = None ->
                calls_of t = [c1; c2; create] ++ map insert_many (submitted t))
            /\ (forall e, outcome r [c1; c2] create = Some e ->
                calls_of t
                = [c1; c2; create; get] ++ map insert_many (submitted t)
                /\ (forall e2, outcome r [c1; c2; create] get = Some e2 ->
                    res = Raise e2 /\ submitted t = [])))
    as (res & t & E & H).
  { rewrite E. exact H. }
  unfold run, IngestV2.ingest_to_astra. unfold credentials_missing in Hc.
  rewrite bind_print, Hc, !bind_print, bind_sdk. fold c1.
  cbn [calls_of app]. rewrite H1, bind_sdk. fold c2.
  cbn [calls_of app]. cbn in H2. fold c1 c2 in H2. rewrite H2.
  rewrite bind_print. unfold bind at 1, try_except at 1.
  rewrite bind_sdk. fold create. cbn [calls_of app].
  set (docs := map (fun ic => IngestV2.make_doc embed_query pdf_filename
                                (List.length chunks) (fst ic) (snd ic))
                   (PyList.enumerate chunks)) in *.
  assert (Lbs : forall k : nat,
             map (fun i => PyList.slice i (i + IngestV2.batch_size) docs)
                 (firstn k (PyList.range_step (List.length docs)
                              IngestV2.batch_size))
             = firstn k bs).
  { intros k. unfold bs, IngestSimple.batches. now rewrite firstn_map. }
  destruct (outcome r [c1; c2] create) as [e|] eqn:Ecreate.
  - rewrite bind_print, bind_sdk. fold get. cbn [calls_of app].
    destruct (outcome r [c1; c2; create] get) as [e2|] eqn:Eget.
    + eexists. eexists. split; [reflexivity|].
      cbn [calls_of submitted tracebacks app].
      repeat split; try discriminate; try (exists 0; reflexivity);
        congruence.
    + unfold print at 1, emit at 1. cbv beta iota.
      v2_after_collection embed_query pdf_filename chunks r;
        fold docs in Sb; rewrite Lbs in Sb; subst c1 c2 create get;
        (eexists; eexists; split; [reflexivity|]);
        rewrite ?calls_of_app, ?submitted_app, ?tracebacks_app,
          ?SimpleMainFacts.calls_of_prints, ?SimpleMainFacts.submitted_prints,
          ?SimpleMainFacts.tracebacks_prints;
        cbn [calls_of submitted tracebacks app];
        rewrite ?app_nil_r, C, T, Sb;
        repeat split; try congruence; try (eexists; reflexivity).
      intros _. destruct (Hok eq_refl) as [Hk _].
      apply firstn_all2. rewrite Hk. unfold bs, IngestSimple.batches.
      rewrite length_map. apply Nat.le_refl.
  - unfold print at 1, emit at 1. cbv beta iota.
    v2_after_collection embed_query pdf_filename chunks r;
      fold docs in Sb; rewrite Lbs in Sb; subst c1 c2 create get;
      (eexists; eexists; split; [reflexivity|]);
      rewrite ?calls_of_app, ?submitted_app, ?tracebacks_app,
        ?SimpleMainFacts.calls_of_prints, ?SimpleMainFacts.submitted_prints,
        ?SimpleMainFacts.tracebacks_prints;
      cbn [calls_of submitted tracebacks app];
      rewrite ?app_nil_r, C, T, Sb;
      repeat split; try congruence; try (eexists; reflexivity).
    intros _. destruct (Hok eq_refl) as [Hk _].
    apply firstn_all2. rewrite Hk. unfold bs, IngestSimple.batches.
    rewrite length_map. apply Nat.le_refl.
Qed.

Lemma v2_collection_fallback_witness :
  let run :=
    IngestV2.ingest_to_astra Scenarios.embed_nothing Scenarios.env_ok
      Scenarios.chunks45 "pdf_documents" "paper.pdf"
      MoreScenarios.remote_collection_exists [] in
  tracebacks (snd run) = []
  /\ calls_of (snd run)
     = [ DataAPIClient (Some "AstraCS:token"%string);
         get_database (Some
            "https://01234567-89ab-cdef-0123-456789abcdef-us-east1.apps.astra.datastax.com"%string);
         create_collection "pdf_documents"; get_collection "pdf_documents" ]
       ++ map insert_many (submitted (snd run)).
Proof.
  intros run.
  destruct (v2_collection_fallback Scenarios.embed_nothing Scenarios.env_ok
              Scenarios.chunks45 "pdf_documents" "paper.pdf"
              MoreScenarios.remote_collection_exists eq_refl)
    as (T & _ & _ & _ & H).
  - cbn. repeat split.
  - destruct (H _ eq_refl) as [Hc _]. split; [exact T | exact Hc].
Defined.

End V2Facts.

(** ** Runs of the query client *)

Module QueryRunFacts.

Import Runtime Collaborators Observations Measures RunFacts QueryAstra
  QueryFacts.

Lemma length_take (n : nat) (s : string) :
  String.length (PyStr.take n s) = Nat.min n (String.length s).
Proof.
  unfold PyStr.take. revert n.
  induction s as [|c s IH]; intros [|n]; simpl; try reflexivity.
  now rewrite IH.
Qed.

Lemma take_all (n : nat) (s : string) :
  String.length s <= n -> PyStr.take n s = s.
Proof.
  unfold PyStr.take. revert n.
  induction s as [|c s IH]; intros [|n] H; simpl in *; try reflexivity;
    try lia.
  f_equal. apply IH. lia.
Qed.

Lemma length_ascii_only (s : string) :
  String.length (ascii_only s) <= String.length s.
Proof.
  induction s as [|c s IH]; simpl; [lia|].
  destruct (nat_of_ascii c <? 128)%nat; simpl; lia.
Qed.

Lemma ascii_only_is_ascii (s : string) :
  PyStr.all_chars (fun c => (nat_of_ascii c <? 128)%nat) (ascii_only s) = true.
Proof.
  induction s as [|c s IH]; simpl; [reflexivity|].
  destruct (nat_of_ascii c <? 128)%nat eqn:E; simpl; [rewrite E|]; exact IH.
Qed.

Section Runs.

Context {Float : Type}.

Variable repr_other : Value Float -> string.
Variable fixed4 : Float -> string.
Variable float_of_int : Z -> option Float.

Local Abbreviation Doc := (Runtime.Doc Float).
Local Abbreviation Trace := (Runtime.Trace Float).
Local Abbreviation Remote := (Runtime.Remote Float).

(** What [show_result] prints for a document whose text is the string
    [text], after the six or seven lines that identify the result. *)
Lemma show_result_run (i : nat) (doc : Doc) (text : string) (r : Remote)
    (t : Trace) :
  get_default "$vectorize" (VStr "No text content") doc = VStr text ->
  match get "$similarity" doc with
  | None | Some (VFloat _) => True
  | Some (VInt z) => float_of_int z <> None
  | _ => False
  end ->
  exists before,
    show_result repr_other fixed4 float_of_int i doc r t
    = (Ok tt,
       t ++ map Print
              (before
               ++ ascii_only (PyStr.take 500 text)
                  :: (if (500 <? String.length text)%nat
                      then [(nl ++ "... (showing 500 of "
                             ++ PyStr.str_of_nat (String.length text)
                             ++ " characters)")%string]
                      else [])
               ++ [dash80])).
Proof.
  intros Hv Hs. unfold show_result. rewrite Hv, !bind_print.
  assert (Sim : exists sim,
             forall (B : Type) (k : unit -> M Float B) (u : Trace),
               bind (match get "$similarity" doc with
                     | Some similarity_score =>
                         bind (lift (format_4f fixed4 float_of_int
                                       similarity_score))
                              (fun s => print ("Similarity Score: " ++ s))
                     | None => ret tt
                     end) k r u
               = k tt r (u ++ map Print sim)).
  { destruct (get "$similarity" doc) as [[x | z | f | l | d] |];
      try contradiction.
    - cbn [format_4f]. destruct (float_of_int z) as [f|]; [|congruence].
      eexists [_]. intros B k u. cbn [lift].
      rewrite bind_assoc, bind_ret, bind_print. reflexivity.
    - eexists [_]. intros B k u. cbn [format_4f lift].
      rewrite bind_assoc, bind_ret, bind_print. reflexivity.
    - exists []. intros B k u. rewrite bind_ret, app_nil_r. reflexivity. }
  destruct Sim as (sim & Sim). rewrite Sim, !bind_print.
  cbn [len lift]. rewrite bind_ret.
  destruct (500 <? String.length text)%nat eqn:Long.
  - cbn [first_500 lift]. rewrite bind_ret.
    unfold bind at 1, try_except at 1.
    cbn [encode_decode_ascii lift]. rewrite bind_ret.
    unfold print at 1, emit at 1. cbv beta iota.
    rewrite bind_assoc. cbn [len lift]. rewrite bind_ret, bind_print.
    unfold print, emit. rewrite length_take.
    apply Nat.ltb_lt in Long.
    replace (Nat.min 500 (String.length text)) with 500 by lia.
    eexists (_ :: _ :: _ :: _ :: sim ++ [_; _]). f_equal.
    rewrite !map_app. cbn [map app]. rewrite !map_app. cbn [map app].
    rewrite <- !app_assoc. reflexivity.
  - rewrite bind_ret.
    unfold bind at 1, try_except at 1.
    cbn [encode_decode_ascii lift]. rewrite bind_ret.
    unfold print at 1, emit at 1. cbv beta iota.
    rewrite bind_ret. unfold print, emit.
    apply Nat.ltb_ge in Long. rewrite (take_all 500 text Long).
    eexists (_ :: _ :: _ :: _ :: sim ++ [_; _]). f_equal.
    rewrite !map_app. cbn [map app]. rewrite !map_app. cbn [map app].
    rewrite <- !app_assoc. reflexivity.
Qed.

Lemma displayable_text (doc : Doc) :
  displayable float_of_int doc = true ->
  (exists text,
     get_default "$vectorize" (VStr "No text content") doc = VStr text)
  /\ match get "$similarity" doc with
     | None | Some (VFloat _) => True
     | Some (VInt z) => float_of_int z <> None
     | _ => False
     end.
Proof.
  unfold displayable, get_default. intros H.
  apply andb_prop in H as [Hs Hv]. split.
  - destruct (get "$vectorize" doc) as [[x | z | f | l | d] |];
      try discriminate; eexists; reflexivity.
  - destruct (get "$similarity" doc) as [[x | z | f | l | d] |];
      try discriminate; try exact I.
    destruct (float_of_int z); [discriminate | discriminate].
Qed.

(** The display loop over documents that can all be displayed returns the
    index of the last one, counting from [start]. *)
Lemma show_results_run (docs : list Doc) :
  Forall (fun doc => displayable float_of_int doc = true) docs ->
  forall (start result_count : nat) (r : Remote) (t : Trace),
  exists lines,
    show_results repr_other fixed4 float_of_int
      (PyList.enumerate_from start docs) result_count r t
    = (Ok (match docs with
           | [] => result_count
           | _ :: _ => start + List.length docs - 1
           end),
       t ++ map Print lines).
Proof.
  induction 1 as [|doc docs Hd _ IH]; intros start result_count r t.
  - exists []. cbn. now rewrite app_nil_r.
  - cbn [PyList.enumerate_from show_results].
    destruct (displayable_text doc Hd) as [[text Hv] Hs].
    destruct (show_result_run start doc text r t Hv Hs) as (before & E).
    rewrite (bind_ok _ _ _ _ _ _ E).
    match goal with
    | |- context [show_results _ _ _ _ _ r ?u] =>
        destruct (IH (S start) start r u) as (lines & E')
    end.
    rewrite E', <- app_assoc, <- map_app. eexists.
    f_equal. f_equal. destruct docs; cbn [List.length]; lia.
Qed.

End Runs.

(** X14. The preview [show_result] prints for a document whose [$vectorize] is
    the string [text] is what [encode('ascii', 'ignore')] keeps of the first
    500 characters of [text]: at most 500 characters, none above code 127.
    For a longer text one more line tells that 500 of its characters are
    shown.  The call returns and only prints. *)
Theorem preview_is_bounded {Float : Type}
    (repr_other : Value Float -> string) (fixed4 : Float -> string)
    (float_of_int : Z -> option Float)
    (i : nat) (doc : Doc Float) (text : string) (r : Remote Float)
    (t : Trace Float) :
  get "$vectorize" doc = Some (VStr text) ->
  get "$similarity" doc = None ->
  let preview := ascii_only (PyStr.take 500 text) in
  exists before after,
    show_result repr_other fixed4 float_of_int i doc r t
    = (Ok tt, t ++ map Print (before ++ preview :: after))
    /\ String.length preview <= 500
    /\ String.length preview <= String.length text
    /\ PyStr.all_chars (fun c => (nat_of_ascii c <? 128)%nat) preview = true
    /\ (String.length text <= 500 -> after = [dash80])
    /\ (500 < String.length text ->
        after = [(nl ++ "... (showing 500 of "
                  ++ PyStr.str_of_nat (String.length text)
                  ++ " characters)")%string; dash80]).
Proof.
  intros Hv Hs preview.
  destruct (show_result_run repr_other fixed4 float_of_int i doc text r t)
    as (before & E).
  { unfold get_default. now rewrite Hv. }
  { now rewrite Hs. }
  exists before. eexists. split; [exact E|].
  pose proof (length_ascii_only (PyStr.take 500 text)) as L.
  rewrite length_take in L.
  repeat split.
  - unfold preview. lia.
  - unfold preview. lia.
  - apply ascii_only_is_ascii.
  - intros H. apply Nat.ltb_ge in H. now rewrite H.
  - intros H. apply Nat.ltb_lt in H. now rewrite H.
Qed.

Lemma preview_is_bounded_witness :
  exists before after,
    show_result (Float:=Scenarios.Float) (fun _ => ""%string)
      (fun _ => ""%string) (fun _ => Some tt) 2
      (IngestSimple.make_doc "paper.pdf" 2 1 "clocks") Scenarios.remote_ok []
    = (Ok tt, map Print (before ++ "clocks"%string :: after))
    /\ after = [dash80].
Proof.
  destruct (preview_is_bounded (Float:=Scenarios.Float) (fun _ => ""%string)
              (fun _ => ""%string) (fun _ => Some tt) 2
              (IngestSimple.make_doc "paper.pdf" 2 1 "clocks") "clocks"
              Scenarios.remote_ok [] eq_refl eq_refl)
    as (before & after & E & _ & _ & _ & Hshort & _).
  exists before, after. split; [exact E|]. apply Hshort. simpl. lia.
Defined.

End QueryRunFacts.

(** ** What a run of the query client does *)

Module QueryRunProps.

Import Runtime Collaborators Observations Measures RunFacts QueryAstra
  QueryFacts QueryRunFacts.

(** X15. When both credentials are set, the four SDK calls return and the
    search finds documents that can all be displayed (a [$similarity],
    when present, is a float or an integer that converts to a float, and
    a [$vectorize], when present, is a string), [query_astra] returns
    after exactly those four calls and reports as many results as the
    store returned. *)
Theorem query_reports_every_result {Float : Type}
    (repr_other : Value Float -> string) (fixed4 : Float -> string)
    (float_of_int : Z -> option Float)
    (env : Env) (query_text collection_name : string) (limit : Z)
    (r : Remote Float) (doc : Doc Float) (docs : list (Doc Float)) :
  let calls := query_calls env collection_name query_text limit in
  let run :=
    query_astra repr_other fixed4 float_of_int env query_text
      collection_name limit r [] in
  credentials_missing env = false ->
  returns_all r [] calls ->
  found r (removelast calls) query_text limit = doc :: docs ->
  Forall (fun d => displayable float_of_int d = true) (doc :: docs) ->
  fst run = Ok tt
  /\ calls_of (snd run) = calls
  /\ In (nl ++ "[+] Found " ++ PyStr.str_of_nat (S (List.length docs))
         ++ " result(s)")%string (printed (snd run)).
Proof.
  intros calls run Hc (H1 & H2 & H3 & H4 & _) Hfound Hdocs.
  unfold run, calls, query_calls in *. cbn [removelast] in Hfound.
  cbn [app] in H2, H3, H4.
  unfold query_astra. unfold credentials_missing in Hc. rewrite Hc.
  rewrite bind_print, bind_sdk. cbn [calls_of app]. rewrite H1.
  rewrite bind_sdk. cbn [calls_of app]. rewrite H2.
  rewrite bind_print, bind_sdk. cbn [calls_of app]. rewrite H3.
  rewrite !bind_print, bind_sdk_find. cbn [calls_of app]. rewrite H4.
  rewrite Hfound, !bind_print.
  match goal with
  | |- context [bind (show_results _ _ _ ?ds ?c) _ r ?u] =>
      destruct (show_results_run repr_other fixed4 float_of_int (doc :: docs)
                  Hdocs 1 c r u) as (lines & E)
  end.
  rewrite (bind_ok _ _ _ _ _ _ E).
  replace (1 + List.length (doc :: docs) - 1) with (S (List.length docs))
    by (cbn [List.length]; lia).
  cbn [Nat.eqb]. rewrite !bind_print. unfold print, emit. cbn [fst snd].
  rewrite !calls_of_app, !SimpleRunFacts.printed_app,
    SimpleMainFacts.calls_of_prints.
  cbn [calls_of printed app]. rewrite ?app_nil_r. repeat split.
  SimpleMainProps.find_line.
Qed.

Lemma query_reports_every_result_witness :
  let run :=
    query_astra (Float:=Scenarios.Float) (fun _ => ""%string)
      (fun _ => "1.0000"%string) (fun _ => Some tt) Scenarios.env_ok "ageing clocks"
      "pdf_documents" 5 MoreScenarios.remote_two_results [] in
  fst run = Ok tt
  /\ In (nl ++ "[+] Found 2 result(s)")%string (printed (snd run)).
Proof.
  intros run.
  destruct (query_reports_every_result (Float:=Scenarios.Float)
              (fun _ => ""%string) (fun _ => "1.0000"%string)
              (fun _ => Some tt) Scenarios.env_ok "ageing clocks" "pdf_documents" 5
              MoreScenarios.remote_two_results
              (("$similarity"%string, VFloat tt)
               :: IngestSimple.make_doc "paper.pdf" 2 0 "ageing")
              [("$similarity"%string, VInt 1)
               :: IngestSimple.make_doc "paper.pdf" 2 1 "clocks"] eq_refl)
    as (H1 & _ & H2).
  - cbn. repeat split.
  - reflexivity.
  - repeat constructor.
  - split; [exact H1 | exact H2].
Defined.

(** X16. When its three SDK calls return, [list_collections] prints the
    collections the store named, numbered from 1 in the store's order,
    followed by their count. *)
Theorem list_collections_prints_names {Float : Type} (env : Env)
    (r : Remote Float) :
  let c1 := DataAPIClient (Float:=Float) (ASTRA_DB_APPLICATION_TOKEN env) in
  let c2 := get_database_by_api_endpoint (Float:=Float)
              (ASTRA_DB_API_ENDPOINT env) in
  let collections := names r [c1; c2] in
  let rule60 := PyStr.repeat_str "=" 60 in
  returns_all r [] [c1; c2; list_collection_names] ->
  exists t,
    list_collections env r [] = (Ok tt, t)
    /\ printed t
       = [ (nl ++ "[*] Connecting to Astra DB...")%string;
           "[*] Fetching collections..."%string;
           (nl ++ rule60)%string; "AVAILABLE COLLECTIONS"%string; rule60 ]
         ++ map (fun ic => (PyStr.str_of_nat (fst ic) ++ ". " ++ snd ic)%string)
                (PyList.enumerate_from 1 collections)
         ++ [ rule60;
              (nl ++ "Total collections: "
               ++ PyStr.str_of_nat (List.length collections))%string ].
Proof.
  intros c1 c2 collections rule60 (H1 & H2 & H3 & _).
  cbn [app] in H2, H3.
  unfold list_collections. rewrite bind_print, bind_sdk. fold c1.
  cbn [calls_of app]. rewrite H1, bind_sdk. fold c2.
  cbn [calls_of app]. rewrite H2, bind_print, bind_sdk_names.
  cbn [calls_of app]. rewrite H3. fold collections. rewrite !bind_print.
  assert (Loop : forall (ics : list (nat * string)) (u : Trace Float)
                        (B : Type) (k : unit -> M Float B),
             bind (for_each ics
                     (fun ic => print (PyStr.str_of_nat (fst ic) ++ ". "
                                       ++ snd ic))) k r u
             = k tt r (u ++ map Print
                             (map (fun ic => (PyStr.str_of_nat (fst ic)
                                              ++ ". " ++ snd ic)%string)
                                  ics))).
  { induction ics as [|ic ics IH]; intros u B k.
    - cbn [for_each map]. rewrite app_nil_r. reflexivity.
    - cbn [for_each map]. rewrite bind_assoc, bind_print, IH.
      rewrite <- app_assoc. reflexivity. }
  unfold show_collections. rewrite Loop, !bind_print. unfold print, emit.
  eexists. split; [reflexivity|].
  rewrite !SimpleRunFacts.printed_app, SimpleMainFacts.printed_prints.
  cbn [printed app]. rewrite <- !app_assoc. reflexivity.
Qed.

Lemma list_collections_prints_names_witness :
  exists t : Trace Scenarios.Float,
    list_collections Scenarios.env_ok Scenarios.remote_requires_token []
    = (Ok tt, t)
    /\ In "1. pdf_documents"%string (printed t).
Proof.
  destruct (list_collections_prints_names (Float:=Scenarios.Float)
              Scenarios.env_ok Scenarios.remote_requires_token)
    as (t & E & P).
  - cbn. repeat split.
  - exists t. split; [exact E|]. rewrite P. cbn. tauto.
Defined.

(** X17. Once [parse_args] has returned, that is for every parsed argument
    record, [main] of the query client does not raise, whatever the
    environment and the store: everything after the parsing is inside its
    [try].  Without [--list-collections] and without a query (or with an
    empty one) it makes no SDK call; with [--list-collections] the query,
    if any, is ignored.  (A command line that [parse_args] refuses leaves
    [main] before this point and is outside the statement.) *)
Theorem query_main_never_raises_once_parsed {Float : Type}
    (repr_other : Value Float -> string) (fixed4 : Float -> string)
    (float_of_int : Z -> option Float)
    (env : Env) (args : Args) (r : Remote Float) :
  let run := main repr_other fixed4 float_of_int env args r [] in
  fst run = Ok tt
  /\ (arg_list_collections args = false ->
      (query args = None \/ query args = Some ""%string) ->
      calls_of (snd run) = [] /\ tracebacks (snd run) = [])
  /\ (arg_list_collections args = true ->
      forall q,
        run = main repr_other fixed4 float_of_int env
                {| query := q; collection := collection args;
                   limit := limit args; arg_list_collections := true |}
                r []).
Proof.
  intros run. unfold run, main. rewrite !bind_print. unfold try_except.
  split; [|split].
  - match goal with
    | |- fst (match ?m with _ => _ end) = _ =>
        destruct m as [[[] | e] u]
    end; [reflexivity|].
    rewrite bind_print. reflexivity.
  - intros Hl Hq. rewrite Hl.
    destruct Hq as [-> | ->]; cbn; split; reflexivity.
  - intros Hl q. rewrite !bind_print. cbn [arg_list_collections].
    rewrite Hl. reflexivity.
Qed.

End QueryRunProps.

(** ** The connection test and the other entry points *)

Module ScriptProps.

Import Runtime Collaborators Observations Measures RunFacts Scenarios
  MoreScenarios.

(** X18. The connection test slices the token before its [try] block.  With no
    token it therefore raises [TypeError] after four printed lines, before
    any SDK call and outside the handler; with a token it never raises,
    whatever the store does and also when the endpoint is missing. *)
Theorem test_connection_needs_token {Float : Type} (env : Env)
    (r : Remote Float) :
  let run := TestConnection.script env r [] in
  (ASTRA_DB_APPLICATION_TOKEN env = None ->
   fst run = Raise (TypeError "'NoneType' object is not subscriptable")
   /\ calls_of (snd run) = []
   /\ tracebacks (snd run) = []
   /\ List.length (printed (snd run)) = 4)
  /\ (forall token, ASTRA_DB_APPLICATION_TOKEN env = Some token ->
      fst run = Ok tt).
Proof.
  intros run. unfold run, TestConnection.script. rewrite !bind_print.
  split.
  - intros ->. cbn. repeat split.
  - intros token ->. cbn [TestConnection.first_20].
    rewrite !bind_print. unfold try_except.
    match goal with
    | |- fst (match ?m with _ => _ end) = _ =>
        destruct m as [[[] | e] u]
    end; [reflexivity|].
    rewrite bind_print. reflexivity.
Qed.

(** X19. [main] of the local-embedding script never raises: a refused batch, a
    failing connection or an unreadable PDF ends in its handler. *)
Theorem v2_main_never_raises {Float : Type}
    (embed_query : string -> list Float)
    (split_text : RecursiveCharacterTextSplitter -> string
                  -> Result (list string))
    (fs : FileSystem) (env : Env) (args : IngestSimple.Args)
    (r : Remote Float) :
  fst (IngestV2.main embed_query env split_text fs args r []) = Ok tt.
Proof.
  unfold IngestV2.main.
  destruct (fs (IngestSimple.pdf_path args)); [|reflexivity].
  rewrite !bind_print. unfold try_except.
  match goal with
  | |- fst (match ?m with _ => _ end) = _ =>
      destruct m as [[[] | e] u]
  end; [reflexivity|].
  rewrite bind_print. reflexivity.
Qed.

End ScriptProps.
